(** * KeyCloakService: a shallow embedding of the OIDC integration layer

    The development follows the TypeScript class [KeyCloakService]
    (constructor, [discovery], [getJWKs], [verifyToken], [generateToken],
    [introspectToken], [registerUser]).  Asynchronous methods are written in
    a small monad that records the calls made to the collaborators (HTTP
    client, loggers, the JWT library) and ends either with a value or with a
    thrown exception (a rejected promise). *)

From Stdlib Require Import String Ascii List.
From stdpp Require Import base option list gmap strings.

Open Scope string_scope.
Open Scope list_scope.

(** ** JavaScript values used by the service *)

(** The double-quote character, for the messages that quote a field name. *)
Definition dq : string := String (ascii_of_nat 34) EmptyString.

(** Truthiness of a [string | undefined] value: [undefined] and the empty
    string are falsy. *)
Definition truthy (v : option string) : bool :=
  match v with
  | Some s => negb (String.eqb s "")
  | None => false
  end.

(** Template-literal rendering of a [string | undefined] value. *)
Definition render (v : option string) : string :=
  match v with
  | Some s => s
  | None => "undefined"
  end.

(** Exceptions by class.  [Error] stands for an error object created by a
    collaborator (HTTP client, jsonwebtoken, jwk-to-pem), by class name and
    message. *)
Inductive Exception : Type :=
| UnauthorizedException (message : string)
| InternalServerErrorException (message : string)
| AssertionError (message : string)
| TypeError (message : string)
| Error (name message : string).

(** A settled promise handed back by an asynchronous collaborator. *)
Inductive Promise (A : Type) : Type :=
| Resolved (value : A)
| Rejected (reason : Exception).
Arguments Resolved {A} value.
Arguments Rejected {A} reason.

(** ** Interfaces of the source file *)

Record OIDCIdentityConfig : Type := {
  issuer : option string;
  introspection_endpoint : option string;
  jwks_uri : option string;
  token_endpoint : option string
}.

Record RegisterUserData : Type := {
  email : string;
  firstName : string;
  lastName : string;
  password : string
}.

Record GenerateTokenData : Type := {
  gt_username : string;
  gt_password : string
}.

Record Token : Type := {
  token_type : string;
  access_token : string;
  refresh_token : option string;
  refresh_expires_in : nat;
  expires_in : option nat
}.

Record ClientCredentials : Type := {
  client_id : string;
  client_secret : option string
}.

(** Modelled from the spec: KeyCloakConfigProperties (declared in another
    file), the settings that the constructor reads: server URI, realm name,
    and the id and secret of the user-facing and of the admin client. *)
Inductive KeyCloakConfigProperties : Type :=
| ENV_KEYCLOAK_SERVER_URI
| ENV_KEYCLOAK_REALM
| ENV_KEYCLOAK_USER_CLIENT_ID
| ENV_KEYCLOAK_USER_CLIENT_SECRET
| ENV_KEYCLOAK_ADMIN_CLIENT_ID
| ENV_KEYCLOAK_ADMIN_CLIENT_SECRET.

(** A JSON Web Key as jwk-to-pem types it, and a key of the key set: a JWK
    together with its [kid]. *)
Inductive JWK : Type :=
| RSAKey (n e : string)
| ECKey (crv x y : string).

Record JWKEntry : Type := {
  kid : string;
  jwk : JWK
}.

Record JWKSData : Type := {
  keys : option (list JWKEntry)
}.

(** The object literal posted by [registerUser]. *)
Record Credential : Type := {
  cred_type : string;
  cred_value : string;
  cred_temporary : bool
}.

Record UserRepresentation : Type := {
  ur_firstName : string;
  ur_lastName : string;
  ur_email : string;
  ur_enabled : bool;
  ur_username : string;
  ur_credentials : list Credential
}.

(** Request data: a form-url-encoded string or a JSON object. *)
Inductive PostData : Type :=
| FormData (body : string)
| JsonData (body : UserRepresentation).

Record RequestConfig : Type := {
  headers : list (string * string);
  responseType : option string
}.

(** The options object given to jsonwebtoken's [verify].  [algorithms] is the
    allow-list of signature algorithms of that library's [VerifyOptions]. *)
Record VerifyOptions : Type := {
  vo_issuer : option string;
  vo_algorithms : option (list string)
}.

(** Decoded claims, as a JSON object of string members. *)
Definition Claims : Type := list (string * string).

(** ** Collaborators *)

(** The type argument of the generic [post<T>] and [loadJSON<T>]. *)
Inductive Payload : Type := TToken | TRecord | TUnknown | TConfig | TJwks.

Definition payload (T : Payload) : Type :=
  match T with
  | TToken => Token
  | TRecord => list (string * string)
  | TUnknown => unit
  | TConfig => OIDCIdentityConfig
  | TJwks => JWKSData
  end.

(** Modelled from the spec: HttpClientService (declared in another file).
    Both operations are asynchronous and signal transport and status errors
    through the promise they return. *)
Record HttpClientService : Type := {
  post : forall T : Payload,
      option string -> PostData -> RequestConfig -> Promise (payload T);
  loadJSON : forall T : Payload, string -> Promise (payload T)
}.

(** [ConfigService.get]: the value of a setting, or [undefined]. *)
Record ConfigService : Type := {
  get : KeyCloakConfigProperties -> option string
}.

(** The JWT decoded without verification: header algorithm and issuer claim. *)
Record DecodedJwt : Type := {
  header_alg : string;
  payload_iss : option string
}.

(** The imported libraries: [stringify] of qs, [jwkToPem] of jwk-to-pem,
    and jsonwebtoken ([verify], and [jwt_decode] to speak of what a token
    declares).  [verify] and [jwkToPem] are synchronous: they return or
    throw. *)
Record Libraries : Type := {
  stringify : list (string * option string) -> string;
  jwkToPem : JWKEntry -> Exception + string;
  jwt_decode : string -> option DecodedJwt;
  verify : string -> option string -> VerifyOptions -> Exception + Claims
}.

(** ** Observable calls *)

Inductive Event : Type :=
| LogDebug (message : string)
| LogError (err : Exception)
| ConsoleLog (message : string)
| ConsoleError (err : Exception)
| HttpPost (url : option string) (data : PostData) (cfg : RequestConfig)
| HttpLoadJSON (url : string)
| JwtVerify (token : string) (key : option string) (options : VerifyOptions).

(** ** The monad of method bodies: a trace of calls and a completion *)

Inductive Completion (A : Type) : Type :=
| Return (value : A)
| Throw (err : Exception).
Arguments Return {A} value.
Arguments Throw {A} err.

Definition M (A : Type) : Type := (list Event * Completion A)%type.

Definition ret {A} (a : A) : M A := ([], Return a).

Definition throw {A} (e : Exception) : M A := ([], Throw e).

Definition bind {A B} (m : M A) (k : A -> M B) : M B :=
  match m with
  | (tr, Return a) => let '(tr', c) := k a in (tr ++ tr', c)
  | (tr, Throw e) => (tr, Throw e)
  end.

Definition emit (ev : Event) : M unit := ([ev], Return tt).

(** [try { m } catch (err) { h err }]. *)
Definition try_catch {A} (m : M A) (h : Exception -> M A) : M A :=
  match m with
  | (tr, Return a) => (tr, Return a)
  | (tr, Throw e) => let '(tr', c) := h e in (tr ++ tr', c)
  end.

(** [await p], also what an async function does with a promise it returns. *)
Definition await {A} (p : Promise A) : M A :=
  match p with
  | Resolved a => ret a
  | Rejected e => throw e
  end.

(** A synchronous library call that returns or throws. *)
Definition call {A} (r : Exception + A) : M A :=
  match r with
  | inr a => ret a
  | inl e => throw e
  end.

#[global] Instance M_ret : MRet M := @ret.
#[global] Instance M_bind : MBind M := fun A B k m => bind m k.

Definition trace {A} (m : M A) : list Event := fst m.
Definition completion {A} (m : M A) : Completion A := snd m.

(** [assert.ok(value, message)] on a [string | undefined]; the value is
    handed back for the uses that follow the assertion. *)
Definition ok (value : option string) (message : string) : M string :=
  match value with
  | Some s => if truthy (Some s) then ret s else throw (AssertionError message)
  | None => throw (AssertionError message)
  end.

(** ** The service *)

Record KeyCloakService : Type := {
  server_uri : string;
  realm : string;
  config : option OIDCIdentityConfig;
  clientAdmin : ClientCredentials;
  clientUser : ClientCredentials
}.

(** Reading a member of [this.config]: a TypeError while it is undefined. *)
Definition config_member {A} (this : KeyCloakService)
    (member : string) (proj : OIDCIdentityConfig -> A) : M A :=
  match config this with
  | Some c => ret (proj c)
  | None =>
      throw (TypeError ("Cannot read properties of undefined (reading '"
                        +:+ member +:+ "')"))
  end.

Section Service.

Context (configService : ConfigService) (httpClient : HttpClientService)
        (lib : Libraries).

Definition httpClient_post (T : Payload) (url : option string)
    (data : PostData) (cfg : RequestConfig) : M (Promise (payload T)) :=
  emit (HttpPost url data cfg) ;; mret (post httpClient T url data cfg).

Definition httpClient_loadJSON (T : Payload) (url : string)
    : M (Promise (payload T)) :=
  emit (HttpLoadJSON url) ;; mret (loadJSON httpClient T url).

Definition discovery_url (server_uri realm : string) : string :=
  server_uri +:+ "/realms/" +:+ realm +:+ "/.well-known/openid-configuration".

(** [discovery]: loads the discovery document and stores it. *)
Definition discovery (this : KeyCloakService) : M KeyCloakService :=
  p ← httpClient_loadJSON TConfig (discovery_url (server_uri this) (realm this)) ;
  c ← await p ;
  mret {| server_uri := server_uri this; realm := realm this;
          config := Some c;
          clientAdmin := clientAdmin this; clientUser := clientUser this |}.

(** The constructor.  The assertions run in the order of the source.  The
    call [this.discovery()] issues its request before the constructor
    returns; its promise settles later, so the object returned has no
    [config] yet. *)
Definition constructor : M KeyCloakService :=
  let server_uri0 := get configService ENV_KEYCLOAK_SERVER_URI in
  let realm0 := get configService ENV_KEYCLOAK_REALM in
  let user_id := get configService ENV_KEYCLOAK_USER_CLIENT_ID in
  let user_secret := get configService ENV_KEYCLOAK_USER_CLIENT_SECRET in
  let admin_id := get configService ENV_KEYCLOAK_ADMIN_CLIENT_ID in
  let admin_secret := get configService ENV_KEYCLOAK_ADMIN_CLIENT_SECRET in
  realm1 ← ok realm0 (dq +:+ "realm" +:+ dq +:+ " is not defined.") ;
  server_uri1 ← ok server_uri0 (dq +:+ "metadata_uri" +:+ dq +:+ " is not defined.") ;
  user_id1 ← ok user_id (dq +:+ "client_id" +:+ dq +:+ " is not defined.") ;
  admin_id1 ← ok admin_id ("Admin " +:+ dq +:+ "client_id" +:+ dq +:+ " is not defined.") ;
  _ ← ok admin_secret ("Admin " +:+ dq +:+ "client_secret" +:+ dq +:+ " is not defined.") ;
  _ ← httpClient_loadJSON TConfig (discovery_url server_uri1 realm1) ;
  mret {| server_uri := server_uri1; realm := realm1;
          config := None;
          clientAdmin := {| client_id := admin_id1; client_secret := admin_secret |};
          clientUser := {| client_id := user_id1; client_secret := user_secret |} |}.

(** The state once the promise of the constructor's [discovery()] call has
    settled: the document is stored, or the rejection goes to
    [console.error] and [config] stays undefined. *)
Definition discovery_settled (this : KeyCloakService) : M KeyCloakService :=
  match loadJSON httpClient TConfig
          (discovery_url (server_uri this) (realm this)) with
  | Resolved c =>
      mret {| server_uri := server_uri this; realm := realm this;
              config := Some c;
              clientAdmin := clientAdmin this; clientUser := clientUser this |}
  | Rejected e => emit (ConsoleError e) ;; mret this
  end.

(** [new Map(entries)]: the entries are set one after the other, so a later
    entry replaces the value of an earlier one with the same key. *)
Definition new_Map (entries : list (string * string)) : gmap string string :=
  foldl (fun m kv => <[kv.1 := kv.2]> m) ∅ entries.

Definition Map_has (m : gmap string string) (k : string) : bool :=
  bool_decide (is_Some (m !! k)).

Definition Map_get (m : gmap string string) (k : string) : option string :=
  m !! k.

(** [array.map(f)] for a callback that may throw. *)
Fixpoint array_map {A B} (f : A -> M B) (l : list A) : M (list B) :=
  match l with
  | [] => mret []
  | a :: l' => b ← f a ; bs ← array_map f l' ; mret (b :: bs)
  end.

Definition jwks_entry (key : JWKEntry) : M (string * string) :=
  pem ← call (jwkToPem lib key) ; mret (kid key, pem).

(** [getJWKs].  The presence check reads [this.config.jwks_uri]; the call to
    [loadJSON] reads it again, after the check, when it is a string.  An
    empty [keys] array is truthy: only an absent list is refused. *)
Definition getJWKs (this : KeyCloakService) : M (gmap string string) :=
  uri ← config_member this "jwks_uri" jwks_uri ;
  _ ← ok uri ("Missing " +:+ dq +:+ "jwks_uri" +:+ dq) ;
  uri' ← config_member this "jwks_uri" jwks_uri ;
  p ← httpClient_loadJSON TJwks (render uri') ;
  data ← await p ;
  match keys data with
  | None =>
      throw (InternalServerErrorException
               "Internal error occurred downloading JWKS data.")
  | Some ks => entries ← array_map jwks_entry ks ; mret (new_Map entries)
  end.

Definition jwt_verify (token : string) (key : option string)
    (options : VerifyOptions) : M Claims :=
  emit (JwtVerify token key options) ;; call (verify lib token key options).

(** [verifyToken]: the options object given to [verify] has the issuer as
    its only member. *)
Definition verifyToken (this : KeyCloakService) (token kid : string)
    : M Claims :=
  pems ← getJWKs this ;
  if negb (Map_has pems kid) then
    throw (UnauthorizedException
             "Authorization header contains an invalid JWT token.")
  else
    let key := Map_get pems kid in
    iss ← config_member this "issuer" issuer ;
    jwt_verify token key {| vo_issuer := iss; vo_algorithms := None |}.

Definition form_headers : list (string * string) :=
  [("Content-Type", "application/x-www-form-urlencoded")].

(** The objects given to [stringify], members in the order of the literal. *)
Definition password_grant (this : KeyCloakService) (tokenData : GenerateTokenData)
    : list (string * option string) :=
  [("username", Some (gt_username tokenData));
   ("password", Some (gt_password tokenData));
   ("grant_type", Some "password");
   ("client_id", Some (client_id (clientUser this)));
   ("client_secret", client_secret (clientUser this))].

Definition client_credentials_grant (this : KeyCloakService)
    : list (string * option string) :=
  [("grant_type", Some "client_credentials");
   ("client_id", Some (client_id (clientAdmin this)));
   ("client_secret", client_secret (clientAdmin this))].

(** [generateToken].  The promise of [post] is returned from inside the
    [try] block without being awaited: the [catch] clause sees what is
    thrown while the call is made, and the promise settles after the block
    has been left. *)
Definition generateToken (this : KeyCloakService)
    (tokenData : option GenerateTokenData) : M Token :=
  let data :=
    match tokenData with
    | Some td => stringify lib (password_grant this td)
    | None => stringify lib (client_credentials_grant this)
    end in
  emit (ConsoleLog data) ;;
  p ← try_catch
        (url ← config_member this "token_endpoint" token_endpoint ;
         httpClient_post TToken url (FormData data)
           {| headers := form_headers; responseType := Some "json" |})
        (fun err => emit (LogError err) ;; throw err) ;
  await p.

Definition bearer (t : Token) : string :=
  token_type t +:+ " " +:+ access_token t.

Definition introspectToken (this : KeyCloakService) (token : string)
    : M (list (string * string)) :=
  endpoint ← config_member this "introspection_endpoint" introspection_endpoint ;
  _ ← ok endpoint ("Missing " +:+ dq +:+ "introspection_endpoint" +:+ dq) ;
  t ← generateToken this None ;
  let data := stringify lib [("token", Some token)] in
  url ← config_member this "introspection_endpoint" introspection_endpoint ;
  p ← httpClient_post TRecord url (FormData data)
        {| headers := [("Authorization", bearer t);
                       ("Content-Type", "application/x-www-form-urlencoded")];
           responseType := None |} ;
  await p.

Definition users_url (this : KeyCloakService) : string :=
  server_uri this +:+ "/admin/realms/" +:+ realm this +:+ "/users".

Definition user_representation (d : RegisterUserData) : UserRepresentation :=
  {| ur_firstName := firstName d;
     ur_lastName := lastName d;
     ur_email := email d;
     ur_enabled := true;
     ur_username := email d;
     ur_credentials :=
       [{| cred_type := "password"; cred_value := password d;
           cred_temporary := false |}] |}.

Definition registerUser (this : KeyCloakService) (d : RegisterUserData)
    : M unit :=
  emit (LogDebug "Called registerUser") ;;
  t ← generateToken this None ;
  emit (ConsoleLog (bearer t)) ;;
  try_catch
    (p ← httpClient_post TUnknown (Some (users_url this))
           (JsonData (user_representation d))
           {| headers := [("Content-Type", "application/json");
                          ("Authorization", bearer t)];
              responseType := Some "json" |} ;
     await p)
    (fun err => emit (LogError err) ;; throw err).

End Service.

(** The signature algorithms of the asymmetric families (RSA, ECDSA,
    RSA-PSS) that a public key of the key set can stand behind. *)
Definition asymmetric_algorithms : list string :=
  ["RS256"; "RS384"; "RS512"; "ES256"; "ES384"; "ES512";
   "PS256"; "PS384"; "PS512"].

(** ** A concrete environment

    A provider with a two-key key set (the key id [kid1] occurs twice), a
    jsonwebtoken that knows three tokens, and a client configuration.  It
    serves to run the service on concrete inputs. *)
Module Doubles.

Definition configService : ConfigService :=
  {| get := fun k =>
       match k with
       | ENV_KEYCLOAK_SERVER_URI => Some "http://kc"
       | ENV_KEYCLOAK_REALM => Some "bc"
       | ENV_KEYCLOAK_USER_CLIENT_ID => Some "web"
       | ENV_KEYCLOAK_USER_CLIENT_SECRET => Some "web-secret"
       | ENV_KEYCLOAK_ADMIN_CLIENT_ID => Some "admin-cli"
       | ENV_KEYCLOAK_ADMIN_CLIENT_SECRET => Some "admin-secret"
       end |}.

(** The same configuration without the secret of the user-facing client. *)
Definition configService_public_client : ConfigService :=
  {| get := fun k =>
       match k with
       | ENV_KEYCLOAK_USER_CLIENT_SECRET => None
       | _ => get configService k
       end |}.

(** The same configuration without the realm. *)
Definition configService_no_realm : ConfigService :=
  {| get := fun k =>
       match k with
       | ENV_KEYCLOAK_REALM => None
       | _ => get configService k
       end |}.

Definition oidc : OIDCIdentityConfig :=
  {| issuer := Some "http://kc/realms/bc";
     introspection_endpoint := Some "http://kc/introspect";
     jwks_uri := Some "http://kc/certs";
     token_endpoint := Some "http://kc/token" |}.

(** A discovery document without [token_endpoint]. *)
Definition oidc_no_token_endpoint : OIDCIdentityConfig :=
  {| issuer := Some "http://kc/realms/bc";
     introspection_endpoint := Some "http://kc/introspect";
     jwks_uri := Some "http://kc/certs";
     token_endpoint := None |}.

Definition admin_token : Token :=
  {| token_type := "Bearer"; access_token := "adm";
     refresh_token := None; refresh_expires_in := 0; expires_in := Some 300 |}.

Definition jwks : list JWKEntry :=
  [ {| kid := "kid1"; jwk := RSAKey "n-old" "AQAB" |};
    {| kid := "kid3"; jwk := ECKey "P-256" "x3" "y3" |};
    {| kid := "kid1"; jwk := RSAKey "n-new" "AQAB" |} ].

Definition conflict : Exception := Error "HttpError" "409 Conflict".
Definition refused : Exception := Error "HttpError" "401 Unauthorized".

(** An HTTP client in front of a provider that answers every request. *)
Definition httpClient : HttpClientService :=
  {| post := fun T =>
       match T return option string -> PostData -> RequestConfig ->
                      Promise (payload T) with
       | TToken => fun _ _ _ => Resolved admin_token
       | TRecord => fun _ _ _ => Resolved [("active", "true")]
       | TUnknown => fun _ _ _ => Resolved tt
       | TConfig => fun _ _ _ => Resolved oidc
       | TJwks => fun _ _ _ => Resolved {| keys := Some jwks |}
       end;
     loadJSON := fun T =>
       match T return string -> Promise (payload T) with
       | TToken => fun _ => Resolved admin_token
       | TRecord => fun _ => Resolved []
       | TUnknown => fun _ => Resolved tt
       | TConfig => fun _ => Resolved oidc
       | TJwks => fun _ => Resolved {| keys := Some jwks |}
       end |}.

(** The same client when the token endpoint refuses every request. *)
Definition httpClient_token_refused : HttpClientService :=
  {| post := fun T =>
       match T return option string -> PostData -> RequestConfig ->
                      Promise (payload T) with
       | TToken => fun _ _ _ => Rejected refused
       | T' => post httpClient T'
       end;
     loadJSON := loadJSON httpClient |}.

(** The same client when the provider answers the creation of a user with
    a conflict. *)
Definition httpClient_conflict : HttpClientService :=
  {| post := fun T =>
       match T return option string -> PostData -> RequestConfig ->
                      Promise (payload T) with
       | TUnknown => fun _ _ _ => Rejected conflict
       | T' => post httpClient T'
       end;
     loadJSON := loadJSON httpClient |}.

(** [k=v] pairs joined by [&]; members that are undefined are left out. *)
Fixpoint stringify_amp (o : list (string * option string)) : string :=
  match o with
  | [] => ""
  | (k, None) :: o' => stringify_amp o'
  | (k, Some v) :: o' =>
      match stringify_amp o' with
      | EmptyString => k +:+ "=" +:+ v
      | rest => k +:+ "=" +:+ v +:+ "&" +:+ rest
      end
  end.

Definition jwkToPem_text (key : JWKEntry) : Exception + string :=
  match jwk key with
  | RSAKey n e => inr ("PUBLIC KEY rsa " +:+ n +:+ " " +:+ e)
  | ECKey crv x y =>
      if String.eqb crv "P-256"
      then inr ("PUBLIC KEY ec " +:+ x +:+ " " +:+ y)
      else inl (Error "Error" ("Unsupported curve " +:+ crv))
  end.

(** A token known to the jsonwebtoken of this environment: what it declares, the key under
    which its signature checks, and its claims. *)
Record KnownToken : Type := {
  kt_decoded : DecodedJwt;
  kt_key : string;
  kt_claims : Claims
}.

Definition pem_new : string := "PUBLIC KEY rsa n-new AQAB".

Definition known (token : string) : option KnownToken :=
  if String.eqb token "rs256.good" then
    Some {| kt_decoded := {| header_alg := "RS256";
                              payload_iss := Some "http://kc/realms/bc" |};
            kt_key := pem_new;
            kt_claims := [("iss", "http://kc/realms/bc"); ("sub", "alice")] |}
  else if String.eqb token "rs256.other-issuer" then
    Some {| kt_decoded := {| header_alg := "RS256";
                              payload_iss := Some "http://evil/realms/bc" |};
            kt_key := pem_new;
            kt_claims := [("iss", "http://evil/realms/bc"); ("sub", "alice")] |}
  else if String.eqb token "hs256.forged" then
    Some {| kt_decoded := {| header_alg := "HS256";
                              payload_iss := Some "http://kc/realms/bc" |};
            kt_key := pem_new;
            kt_claims := [("iss", "http://kc/realms/bc"); ("sub", "admin")] |}
  else None.

Definition jwt_error (message : string) : Exception :=
  Error "JsonWebTokenError" message.

Definition string_mem (s : string) (l : list string) : bool :=
  existsb (String.eqb s) l.

Definition option_string_eqb (a b : option string) : bool :=
  match a, b with
  | Some x, Some y => String.eqb x y
  | None, None => true
  | _, _ => false
  end.

(** The keys of [jwkToPem_text] are public keys. *)
Definition is_public_key (key : string) : bool :=
  String.prefix "PUBLIC KEY" key.

Definition symmetric_algorithms : list string :=
  ["HS256"; "HS384"; "HS512"].

(** A [verify] with the defaults of jsonwebtoken: without an allow-list the
    allowed algorithms are those of the type of the key (the asymmetric ones
    for a public key, the HMAC ones for a secret), and the issuer is checked
    when a non-empty one is expected. *)
Definition verify_by_key_type (token : string) (key : option string)
    (options : VerifyOptions) : Exception + Claims :=
  match known token, key with
  | None, _ => inl (jwt_error "jwt malformed")
  | Some _, None => inl (jwt_error "secret or public key must be provided")
  | Some t, Some k =>
      let algorithms :=
        match vo_algorithms options with
        | Some algs => algs
        | None =>
            if is_public_key k then asymmetric_algorithms
            else symmetric_algorithms
        end in
      if negb (string_mem (header_alg (kt_decoded t)) algorithms) then
        inl (jwt_error "invalid algorithm")
      else if negb (String.eqb k (kt_key t)) then
        inl (jwt_error "invalid signature")
      else if truthy (vo_issuer options) then
        if option_string_eqb (payload_iss (kt_decoded t)) (vo_issuer options)
        then inr (kt_claims t)
        else inl (jwt_error ("jwt issuer invalid. expected: "
                             +:+ render (vo_issuer options)))
      else inr (kt_claims t)
  end.

Definition lib : Libraries :=
  {| stringify := stringify_amp;
     jwkToPem := jwkToPem_text;
     jwt_decode := fun token => kt_decoded <$> known token;
     verify := verify_by_key_type |}.

(** The service the constructor builds, and the same once discovery has
    stored the document. *)
Definition fresh : KeyCloakService :=
  {| server_uri := "http://kc"; realm := "bc"; config := None;
     clientAdmin := {| client_id := "admin-cli";
                       client_secret := Some "admin-secret" |};
     clientUser := {| client_id := "web";
                      client_secret := Some "web-secret" |} |}.

Definition ready : KeyCloakService :=
  {| server_uri := "http://kc"; realm := "bc"; config := Some oidc;
     clientAdmin := clientAdmin fresh; clientUser := clientUser fresh |}.

Definition ready_no_token_endpoint : KeyCloakService :=
  {| server_uri := "http://kc"; realm := "bc";
     config := Some oidc_no_token_endpoint;
     clientAdmin := clientAdmin fresh; clientUser := clientUser fresh |}.

(** The key map of the key set [jwks]. *)
Definition pems : gmap string string :=
  new_Map [("kid1", "PUBLIC KEY rsa n-old AQAB");
           ("kid3", "PUBLIC KEY ec x3 y3");
           ("kid1", pem_new)].

Definition pem_text (key : JWKEntry) : string :=
  match jwkToPem_text key with
  | inr p => p
  | inl _ => ""
  end.

Definition alice : RegisterUserData :=
  {| email := "a@b.com"; firstName := "A"; lastName := "B"; password := "p" |}.

End Doubles.


(** ** More provider behaviours

    HTTP clients whose key-set and discovery answers are chosen, key sets
    with a key that jwk-to-pem refuses, and services with an incomplete
    discovery document. *)
Module Scenarios.

(** The client of [Doubles] with the given answers to the key-set and to the
    discovery request. *)
Definition httpClient_with (jwks_answer : Promise JWKSData)
    (discovery_answer : Promise OIDCIdentityConfig) : HttpClientService :=
  {| post := post Doubles.httpClient;
     loadJSON := fun T =>
       match T return string -> Promise (payload T) with
       | TJwks => fun _ => jwks_answer
       | TConfig => fun _ => discovery_answer
       | T' => loadJSON Doubles.httpClient T'
       end |}.

Definition unreachable : Exception := Error "HttpError" "ECONNREFUSED".

Definition httpClient_jwks_rejected : HttpClientService :=
  httpClient_with (Rejected unreachable) (Resolved Doubles.oidc).

Definition httpClient_no_keys : HttpClientService :=
  httpClient_with (Resolved {| keys := None |}) (Resolved Doubles.oidc).

Definition httpClient_empty_keys : HttpClientService :=
  httpClient_with (Resolved {| keys := Some [] |}) (Resolved Doubles.oidc).

(** A key set whose second key is on a curve that the conversion refuses. *)
Definition jwks_bad_curve : list JWKEntry :=
  [ {| kid := "kid1"; jwk := RSAKey "n-new" "AQAB" |};
    {| kid := "kid9"; jwk := ECKey "P-521" "x9" "y9" |};
    {| kid := "kid3"; jwk := ECKey "P-256" "x3" "y3" |} ].

Definition httpClient_bad_curve : HttpClientService :=
  httpClient_with (Resolved {| keys := Some jwks_bad_curve |})
    (Resolved Doubles.oidc).

Definition httpClient_discovery_rejected : HttpClientService :=
  httpClient_with (Resolved {| keys := Some Doubles.jwks |})
    (Rejected unreachable).

(** The client of [Doubles] when the introspection endpoint answers with an
    error. *)
Definition httpClient_introspection_refused : HttpClientService :=
  {| post := fun T =>
       match T return option string -> PostData -> RequestConfig ->
                      Promise (payload T) with
       | TRecord => fun _ _ _ => Rejected Doubles.refused
       | T' => post Doubles.httpClient T'
       end;
     loadJSON := loadJSON Doubles.httpClient |}.

(** A discovery document that names no key set and no introspection
    endpoint. *)
Definition oidc_issuer_only : OIDCIdentityConfig :=
  {| issuer := Some "http://kc/realms/bc";
     introspection_endpoint := None;
     jwks_uri := None;
     token_endpoint := Some "http://kc/token" |}.

Definition ready_issuer_only : KeyCloakService :=
  {| server_uri := "http://kc"; realm := "bc";
     config := Some oidc_issuer_only;
     clientAdmin := clientAdmin Doubles.fresh;
     clientUser := clientUser Doubles.fresh |}.

(** A configuration with neither realm nor server URI. *)
Definition configService_no_realm_no_uri : ConfigService :=
  {| get := fun k =>
       match k with
       | ENV_KEYCLOAK_REALM => None
       | ENV_KEYCLOAK_SERVER_URI => Some ""
       | _ => get Doubles.configService k
       end |}.

(** A configuration with an empty server URI. *)
Definition configService_empty_uri : ConfigService :=
  {| get := fun k =>
       match k with
       | ENV_KEYCLOAK_SERVER_URI => Some ""
       | _ => get Doubles.configService k
       end |}.

End Scenarios.

(** The settings that the constructor asserts, in the order of its
    assertions, each with the message of its assertion. *)
Definition constructor_checks (configService : ConfigService)
    : list (option string * string) :=
  [(get configService ENV_KEYCLOAK_REALM,
    dq +:+ "realm" +:+ dq +:+ " is not defined.");
   (get configService ENV_KEYCLOAK_SERVER_URI,
    dq +:+ "metadata_uri" +:+ dq +:+ " is not defined.");
   (get configService ENV_KEYCLOAK_USER_CLIENT_ID,
    dq +:+ "client_id" +:+ dq +:+ " is not defined.");
   (get configService ENV_KEYCLOAK_ADMIN_CLIENT_ID,
    "Admin " +:+ dq +:+ "client_id" +:+ dq +:+ " is not defined.");
   (get configService ENV_KEYCLOAK_ADMIN_CLIENT_SECRET,
    "Admin " +:+ dq +:+ "client_secret" +:+ dq +:+ " is not defined.")].

(** The exceptions of the presence checks and of a key set without keys. *)
Definition missing_jwks_uri : Exception :=
  AssertionError ("Missing " +:+ dq +:+ "jwks_uri" +:+ dq).

Definition missing_introspection_endpoint : Exception :=
  AssertionError ("Missing " +:+ dq +:+ "introspection_endpoint" +:+ dq).

Definition jwks_download_failed : Exception :=
  InternalServerErrorException "Internal error occurred downloading JWKS data.".

Definition is_Return {A} (c : Completion A) : bool :=
  match c with
  | Return _ => true
  | Throw _ => false
  end.

(** The request configuration of the introspection request. *)
Definition introspection_request_config (t : Token) : RequestConfig :=
  {| headers := [("Authorization", token_type t +:+ " " +:+ access_token t);
                 ("Content-Type", "application/x-www-form-urlencoded")];
     responseType := None |}.

Definition is_JwtVerify (ev : Event) : bool :=
  match ev with
  | JwtVerify _ _ _ => true
  | _ => false
  end.

Definition is_network (ev : Event) : bool :=
  match ev with
  | HttpPost _ _ _ | HttpLoadJSON _ => true
  | _ => false
  end.

Definition is_LogError (ev : Event) : bool :=
  match ev with
  | LogError _ => true
  | _ => false
  end.

Definition is_UnauthorizedException {A} (c : Completion A) : bool :=
  match c with
  | Throw (UnauthorizedException _) => true
  | _ => false
  end.

(** A library whose [verify], asked to expect a non-empty issuer, throws on
    every token that declares another one (or none). *)
Definition checks_issuer (lib : Libraries) : Prop :=
  forall token key iss algs d,
    iss <> "" ->
    jwt_decode lib token = Some d ->
    payload_iss d <> Some iss ->
    exists e,
      verify lib token key {| vo_issuer := Some iss; vo_algorithms := algs |}
      = inl e.


(** The exception of [verifyToken] for a key id that is not in the key map. *)
Definition unauthorized_invalid_jwt : Exception :=
  UnauthorizedException "Authorization header contains an invalid JWT token.".

(** The request configuration of a token request. *)
Definition token_request_config : RequestConfig :=
  {| headers := [("Content-Type", "application/x-www-form-urlencoded")];
     responseType := Some "json" |}.

(** The request configuration of the user-creation request. *)
Definition users_request_config (t : Token) : RequestConfig :=
  {| headers := [("Content-Type", "application/json");
                 ("Authorization", token_type t +:+ " " +:+ access_token t)];
     responseType := Some "json" |}.

(** The messages of the constructor's assertions. *)
Definition constructor_messages : list string :=
  [dq +:+ "realm" +:+ dq +:+ " is not defined.";
   dq +:+ "metadata_uri" +:+ dq +:+ " is not defined.";
   dq +:+ "client_id" +:+ dq +:+ " is not defined.";
   "Admin " +:+ dq +:+ "client_id" +:+ dq +:+ " is not defined.";
   "Admin " +:+ dq +:+ "client_secret" +:+ dq +:+ " is not defined."].

(** * Properties *)

(** ** The monad *)

Lemma bind_Return {A B} (tr : list Event) (a : A) (k : A -> M B) :
  (tr, Return a) ≫= k = (tr ++ (k a).1, (k a).2).
Proof.
  unfold mbind, M_bind, bind. by destruct (k a).
Qed.

Lemma bind_Throw {A B} (tr : list Event) (e : Exception) (k : A -> M B) :
  (tr, Throw e) ≫= k = (tr, Throw e).
Proof. reflexivity. Qed.

Lemma bind_trace_prefix {A B} (m : M A) (k : A -> M B) :
  exists rest, trace (m ≫= k) = trace m ++ rest.
Proof.
  destruct m as [tr [a|e]].
  - rewrite bind_Return. by exists (k a).1.
  - exists []. by rewrite bind_Throw, app_nil_r.
Qed.

(** ** The key map *)

Section KeyMap.

Implicit Types (entries : list (string * string)) (m : gmap string string).

Lemma foldl_set_lookup_ne entries m k :
  Forall (fun kv => kv.1 <> k) entries ->
  foldl (fun m kv => <[kv.1 := kv.2]> m) m entries !! k = m !! k.
Proof.
  revert m. induction entries as [|[k' v'] entries IH]; intros m Hne; [done|].
  apply Forall_cons in Hne as [Hk Hne]. cbn [foldl fst snd] in *.
  rewrite IH by done. apply lookup_insert_ne. done.
Qed.

Lemma foldl_set_lookup_None entries m k :
  foldl (fun m kv => <[kv.1 := kv.2]> m) m entries !! k = None <->
  m !! k = None /\ Forall (fun kv => kv.1 <> k) entries.
Proof.
  revert m. induction entries as [|[k' v'] entries IH]; intros m.
  - cbn [foldl]. split; [intros H; by split|by intros [H _]].
  - cbn [foldl fst snd]. rewrite IH, lookup_insert_None, Forall_cons.
    cbn [fst]. tauto.
Qed.

(** The value of a key is that of its last entry. *)
Lemma new_Map_lookup_last entries1 k v entries2 :
  Forall (fun kv => kv.1 <> k) entries2 ->
  new_Map (entries1 ++ (k, v) :: entries2) !! k = Some v.
Proof.
  intros Hne. unfold new_Map. rewrite foldl_app. cbn [foldl fst snd].
  rewrite foldl_set_lookup_ne by done. apply lookup_insert_eq.
Qed.

(** A key is absent exactly when no entry carries it. *)
Lemma new_Map_lookup_None entries k :
  new_Map entries !! k = None <-> Forall (fun kv => kv.1 <> k) entries.
Proof.
  unfold new_Map. rewrite foldl_set_lookup_None, lookup_empty. tauto.
Qed.

End KeyMap.

(** ** The methods *)

Section Methods.

Context (httpClient : HttpClientService) (lib : Libraries).

Implicit Types (this : KeyCloakService) (cfg : OIDCIdentityConfig).

(** Runs the part of a method body whose outcome is known. *)
Ltac run :=
  repeat progress
    (unfold mret, M_ret, ret, throw, emit, httpClient_post,
       httpClient_loadJSON, jwt_verify;
     cbn [await call try_catch render trace completion fst snd app negb keys];
     rewrite ?bind_Return, ?bind_Throw).

Lemma truthy_Some s : truthy (Some s) = true <-> s <> "".
Proof.
  unfold truthy. destruct (String.eqb_spec s ""); simpl; split; congruence.
Qed.

Lemma ok_truthy v message :
  truthy v = true -> exists s, v = Some s /\ ok v message = ([], Return s).
Proof.
  destruct v as [s|]; [|discriminate]. intros H. exists s. split; [done|].
  unfold ok. by rewrite H.
Qed.

Lemma ok_falsy v message :
  truthy v = false -> ok v message = ([], Throw (AssertionError message)).
Proof.
  destruct v as [s|]; [|done]. intros H. unfold ok. by rewrite H.
Qed.

Lemma jwks_entry_inr key p :
  jwkToPem lib key = inr p -> jwks_entry lib key = ([], Return (kid key, p)).
Proof. intros H. unfold jwks_entry. by rewrite H. Qed.

Lemma jwks_entry_inl key e :
  jwkToPem lib key = inl e -> jwks_entry lib key = ([], Throw e).
Proof. intros H. unfold jwks_entry. by rewrite H. Qed.

Lemma array_map_jwks_entry ks (pem : JWKEntry -> string) :
  Forall (fun k => jwkToPem lib k = inr (pem k)) ks ->
  array_map (jwks_entry lib) ks
  = ([], Return ((fun k => (kid k, pem k)) <$> ks)).
Proof.
  induction 1 as [|k ks Hk _ IH]; [done|].
  cbn [array_map]. rewrite (jwks_entry_inr _ _ Hk), IH. done.
Qed.

Lemma array_map_jwks_entry_trace ks :
  trace (array_map (jwks_entry lib) ks) = [].
Proof.
  induction ks as [|k ks IH]; [done|].
  cbn [array_map].
  destruct (jwkToPem lib k) as [e|p] eqn:Hk;
    [by rewrite (jwks_entry_inl _ _ Hk)|rewrite (jwks_entry_inr _ _ Hk)]. run.
  destruct (array_map (jwks_entry lib) ks) as [tr [bs|e]]; simpl in *; by subst.
Qed.

Lemma getJWKs_undefined_config this :
  config this = None ->
  getJWKs httpClient lib this
  = ([], Throw (TypeError
                  "Cannot read properties of undefined (reading 'jwks_uri')")).
Proof.
  intros Hcfg. unfold getJWKs, config_member. rewrite Hcfg. reflexivity.
Qed.

Lemma getJWKs_keys this cfg uri ks (pem : JWKEntry -> string) :
  config this = Some cfg ->
  jwks_uri cfg = Some uri ->
  truthy (Some uri) = true ->
  loadJSON httpClient TJwks uri = Resolved {| keys := Some ks |} ->
  Forall (fun k => jwkToPem lib k = inr (pem k)) ks ->
  getJWKs httpClient lib this
  = ([HttpLoadJSON uri],
     Return (new_Map ((fun k => (kid k, pem k)) <$> ks))).
Proof.
  intros Hcfg Huri Htruthy Hload Hpem.
  unfold getJWKs, config_member. rewrite Hcfg. run. rewrite Huri.
  unfold ok. rewrite Htruthy. run. rewrite Hload. run.
  rewrite (array_map_jwks_entry _ pem) by done. by run.
Qed.

Lemma getJWKs_Return_config this tr pems :
  getJWKs httpClient lib this = (tr, Return pems) ->
  exists cfg, config this = Some cfg.
Proof.
  destruct (config this) as [cfg|] eqn:Hcfg; [by eauto|].
  by rewrite getJWKs_undefined_config.
Qed.

Lemma getJWKs_no_verify this :
  existsb is_JwtVerify (trace (getJWKs httpClient lib this)) = false.
Proof.
  unfold getJWKs, config_member.
  destruct (config this) as [cfg|]; [|done]. run.
  destruct (jwks_uri cfg) as [uri|]; [|done].
  unfold ok. destruct (truthy (Some uri)); [|done]. run.
  destruct (loadJSON httpClient TJwks uri) as [[[ks|]]|e]; run; try done.
  pose proof (array_map_jwks_entry_trace ks) as Htr.
  destruct (array_map (jwks_entry lib) ks) as [tr [bs|e]];
    simpl in Htr; subst; done.
Qed.

(** *** The constructor *)

Section Constructor.

Context (configService : ConfigService).

(** An object that the constructor returns has no discovery document yet,
    and its user-facing client carries whatever secret the configuration
    holds, be it undefined. *)
Lemma constructor_Return tr this :
  constructor configService httpClient = (tr, Return this) ->
  config this = None
  /\ client_secret (clientUser this)
     = get configService ENV_KEYCLOAK_USER_CLIENT_SECRET.
Proof.
  unfold constructor.
  destruct (ok (get configService ENV_KEYCLOAK_REALM) _) as [tr1 [v1|e1]];
    run; [|done].
  destruct (ok (get configService ENV_KEYCLOAK_SERVER_URI) _) as [tr2 [v2|e2]];
    run; [|done].
  destruct (ok (get configService ENV_KEYCLOAK_USER_CLIENT_ID) _)
    as [tr3 [v3|e3]]; run; [|done].
  destruct (ok (get configService ENV_KEYCLOAK_ADMIN_CLIENT_ID) _)
    as [tr4 [v4|e4]]; run; [|done].
  destruct (ok (get configService ENV_KEYCLOAK_ADMIN_CLIENT_SECRET) _)
    as [tr5 [v5|e5]]; run; [|done].
  by intros [= _ <-].
Qed.

(** C9, as the code has it: when the realm, the server URI, the user
    client id, the admin client id or the admin client secret is undefined
    or empty, construction fails with an assertion error that names a
    setting, before the discovery request is issued.  The secret of the
    user-facing client is not among the settings checked. *)
Theorem constructor_fails_fast :
  truthy (get configService ENV_KEYCLOAK_REALM) = false
  \/ truthy (get configService ENV_KEYCLOAK_SERVER_URI) = false
  \/ truthy (get configService ENV_KEYCLOAK_USER_CLIENT_ID) = false
  \/ truthy (get configService ENV_KEYCLOAK_ADMIN_CLIENT_ID) = false
  \/ truthy (get configService ENV_KEYCLOAK_ADMIN_CLIENT_SECRET) = false ->
  exists message,
    message ∈ constructor_messages
    /\ constructor configService httpClient
       = ([], Throw (AssertionError message)).
Proof.
  intros Hmissing. unfold constructor, constructor_messages.
  destruct (truthy (get configService ENV_KEYCLOAK_REALM)) eqn:H1;
    [destruct (ok_truthy _ (dq +:+ "realm" +:+ dq +:+ " is not defined.") H1)
       as (s1 & _ & ->); run
    |rewrite (ok_falsy _ _ H1); run; eexists; split; [|done]; by repeat constructor].
  destruct (truthy (get configService ENV_KEYCLOAK_SERVER_URI)) eqn:H2;
    [destruct (ok_truthy _ (dq +:+ "metadata_uri" +:+ dq +:+ " is not defined.")
                 H2) as (s2 & _ & ->); run
    |rewrite (ok_falsy _ _ H2); run; eexists; split; [|done]; by repeat constructor].
  destruct (truthy (get configService ENV_KEYCLOAK_USER_CLIENT_ID)) eqn:H3;
    [destruct (ok_truthy _ (dq +:+ "client_id" +:+ dq +:+ " is not defined.")
                 H3) as (s3 & _ & ->); run
    |rewrite (ok_falsy _ _ H3); run; eexists; split; [|done]; by repeat constructor].
  destruct (truthy (get configService ENV_KEYCLOAK_ADMIN_CLIENT_ID)) eqn:H4;
    [destruct (ok_truthy _
                 ("Admin " +:+ dq +:+ "client_id" +:+ dq +:+ " is not defined.")
                 H4) as (s4 & _ & ->); run
    |rewrite (ok_falsy _ _ H4); run; eexists; split; [|done]; by repeat constructor].
  destruct (truthy (get configService ENV_KEYCLOAK_ADMIN_CLIENT_SECRET)) eqn:H5;
    [|rewrite (ok_falsy _ _ H5); run; eexists; split; [|done]; by repeat constructor].
  destruct Hmissing as [?|[?|[?|[?|?]]]]; congruence.
Qed.

(** With those five settings in place construction succeeds and issues the
    discovery request, whether or not the user-facing client has a secret. *)
Lemma constructor_succeeds :
  truthy (get configService ENV_KEYCLOAK_REALM) = true ->
  truthy (get configService ENV_KEYCLOAK_SERVER_URI) = true ->
  truthy (get configService ENV_KEYCLOAK_USER_CLIENT_ID) = true ->
  truthy (get configService ENV_KEYCLOAK_ADMIN_CLIENT_ID) = true ->
  truthy (get configService ENV_KEYCLOAK_ADMIN_CLIENT_SECRET) = true ->
  exists this,
    constructor configService httpClient
    = ([HttpLoadJSON (discovery_url (server_uri this) (realm this))],
       Return this).
Proof.
  intros H1 H2 H3 H4 H5. unfold constructor.
  destruct (ok_truthy _ (dq +:+ "realm" +:+ dq +:+ " is not defined.") H1)
    as (s1 & _ & ->); run.
  destruct (ok_truthy _ (dq +:+ "metadata_uri" +:+ dq +:+ " is not defined.")
              H2) as (s2 & _ & ->); run.
  destruct (ok_truthy _ (dq +:+ "client_id" +:+ dq +:+ " is not defined.") H3)
    as (s3 & _ & ->); run.
  destruct (ok_truthy _
              ("Admin " +:+ dq +:+ "client_id" +:+ dq +:+ " is not defined.")
              H4) as (s4 & _ & ->); run.
  destruct (ok_truthy _
              ("Admin " +:+ dq +:+ "client_secret" +:+ dq +:+ " is not defined.")
              H5) as (s5 & _ & ->); run.
  by eexists (Build_KeyCloakService s2 s1 None _ _).
Qed.

(** [discovery] stores the document that the provider returns; this is also
    the state in which the request issued by the constructor leaves the
    service once it has been answered. *)
Lemma discovery_Resolved this c :
  loadJSON httpClient TConfig (discovery_url (server_uri this) (realm this))
  = Resolved c ->
  exists this',
    config this' = Some c
    /\ discovery httpClient this
       = ([HttpLoadJSON (discovery_url (server_uri this) (realm this))],
          Return this')
    /\ discovery_settled httpClient this = ([], Return this').
Proof.
  intros Hload. unfold discovery, discovery_settled. run. rewrite Hload. run.
  by eexists (Build_KeyCloakService _ _ (Some c) _ _).
Qed.

(** A rejected discovery request goes to [console.error]; the service stays
    without a document. *)
Lemma discovery_Rejected this e :
  loadJSON httpClient TConfig (discovery_url (server_uri this) (realm this))
  = Rejected e ->
  discovery_settled httpClient this = ([ConsoleError e], Return this).
Proof.
  intros Hload. unfold discovery_settled. rewrite Hload. by run.
Qed.

End Constructor.

(** *** verifyToken *)

(** With the key id in the key map, the token goes to [verify] with the PEM
    found and the cached issuer as the only option, and the outcome of
    [verify] is the outcome of the method. *)
Lemma verifyToken_known_kid this cfg token kid tr pems pem :
  getJWKs httpClient lib this = (tr, Return pems) ->
  pems !! kid = Some pem ->
  config this = Some cfg ->
  let options := {| vo_issuer := issuer cfg; vo_algorithms := None |} in
  verifyToken httpClient lib this token kid
  = (tr ++ [JwtVerify token (Some pem) options],
     completion (call (verify lib token (Some pem) options))).
Proof.
  intros Hjwks Hkid Hcfg options.
  unfold verifyToken. rewrite Hjwks. run.
  unfold Map_has, Map_get, config_member. rewrite Hkid, Hcfg.
  rewrite bool_decide_eq_true_2 by eauto. run.
  fold options. by destruct (verify lib token (Some pem) options); run.
Qed.

(** C1: for every token and every key id that the key map built from the
    fetched JWKS does not hold, [verifyToken] fails with the
    UnauthorizedException, whatever [verify] would say of the signature, and
    no call to [verify] is made. *)
Theorem verifyToken_unknown_kid this token kid tr pems :
  getJWKs httpClient lib this = (tr, Return pems) ->
  pems !! kid = None ->
  verifyToken httpClient lib this token kid
  = (tr, Throw unauthorized_invalid_jwt)
  /\ existsb is_JwtVerify
       (trace (verifyToken httpClient lib this token kid)) = false.
Proof.
  intros Hjwks Hkid.
  assert (verifyToken httpClient lib this token kid
          = (tr, Throw unauthorized_invalid_jwt)) as Heq.
  { unfold verifyToken. rewrite Hjwks. run.
    unfold Map_has. rewrite Hkid.
    rewrite bool_decide_eq_false_2 by (by intros [? ?]).
    run. by rewrite app_nil_r. }
  split; [done|]. rewrite Heq.
  pose proof (getJWKs_no_verify this) as Hno. by rewrite Hjwks in Hno.
Qed.

(** [verifyToken] itself names no signature algorithm.  For a key id of the
    key map it calls [verify] with the token, the PEM and the issuer as its
    only option (no allow-list of algorithms), and it fails or returns
    exactly as that call does. *)
Lemma verifyToken_delegates_algorithm this token kid tr pems pem :
  getJWKs httpClient lib this = (tr, Return pems) ->
  pems !! kid = Some pem ->
  exists cfg,
    config this = Some cfg
    /\ verifyToken httpClient lib this token kid
       = (tr ++ [JwtVerify token (Some pem)
                   {| vo_issuer := issuer cfg; vo_algorithms := None |}],
          match verify lib token (Some pem)
                  {| vo_issuer := issuer cfg; vo_algorithms := None |} with
          | inr claims => Return claims
          | inl e => Throw e
          end).
Proof.
  intros Hjwks Hkid.
  destruct (getJWKs_Return_config _ _ _ Hjwks) as [cfg Hcfg].
  exists cfg. split; [done|].
  rewrite (verifyToken_known_kid _ cfg _ _ _ _ _ Hjwks Hkid Hcfg).
  by destruct (verify lib token (Some pem) _).
Qed.

(** C3, as the code has it: with a library that checks the expected issuer,
    a token whose issuer claim differs from the cached, non-empty issuer
    makes [verifyToken] fail with the very error that [verify] throws; the
    error is not turned into an UnauthorizedException, and no claims are
    returned. *)
Theorem verifyToken_issuer_mismatch this cfg iss token d kid tr pems pem :
  checks_issuer lib ->
  getJWKs httpClient lib this = (tr, Return pems) ->
  pems !! kid = Some pem ->
  config this = Some cfg ->
  issuer cfg = Some iss ->
  iss <> "" ->
  jwt_decode lib token = Some d ->
  payload_iss d <> Some iss ->
  exists e,
    verify lib token (Some pem)
      {| vo_issuer := Some iss; vo_algorithms := None |} = inl e
    /\ verifyToken httpClient lib this token kid
       = (tr ++ [JwtVerify token (Some pem)
                   {| vo_issuer := Some iss; vo_algorithms := None |}],
          Throw e).
Proof.
  intros Hlib Hjwks Hkid Hcfg Hiss Hnonempty Hd Hne.
  destruct (Hlib token (Some pem) iss None d Hnonempty Hd Hne) as [e He].
  exists e. split; [done|].
  rewrite (verifyToken_known_kid _ cfg _ _ _ _ _ Hjwks Hkid Hcfg).
  by rewrite Hiss, He.
Qed.

(** C4, the code at the failing input: while [config] is undefined (as the
    constructor leaves it until discovery settles) [verifyToken] ends with
    the TypeError of reading [jwks_uri] of undefined, not with the
    assertion error of the presence check. *)
Theorem verifyToken_before_discovery this token kid :
  config this = None ->
  verifyToken httpClient lib this token kid
  = ([], Throw (TypeError
                  "Cannot read properties of undefined (reading 'jwks_uri')")).
Proof.
  intros Hcfg. unfold verifyToken.
  by rewrite (getJWKs_undefined_config _ Hcfg).
Qed.

(** C10: when the key set lists several keys with one [kid], the key map
    binds that [kid] to the PEM of the last of them, and [verifyToken] hands
    that PEM to [verify]; a [kid] listed once is the case of no other
    entry. *)
Theorem getJWKs_last_kid_wins this cfg uri ks (pem : JWKEntry -> string)
    ks1 key ks2 token :
  config this = Some cfg ->
  jwks_uri cfg = Some uri ->
  truthy (Some uri) = true ->
  loadJSON httpClient TJwks uri = Resolved {| keys := Some ks |} ->
  Forall (fun k => jwkToPem lib k = inr (pem k)) ks ->
  ks = ks1 ++ key :: ks2 ->
  Forall (fun k => kid k <> kid key) ks2 ->
  exists pems,
    getJWKs httpClient lib this = ([HttpLoadJSON uri], Return pems)
    /\ pems !! kid key = Some (pem key)
    /\ trace (verifyToken httpClient lib this token (kid key))
       = [HttpLoadJSON uri;
          JwtVerify token (Some (pem key))
            {| vo_issuer := issuer cfg; vo_algorithms := None |}].
Proof.
  intros Hcfg Huri Htruthy Hload Hpem -> Hlast.
  pose proof (getJWKs_keys _ _ _ _ _ Hcfg Huri Htruthy Hload Hpem) as Hjwks.
  eexists. split; [exact Hjwks|].
  assert (new_Map ((fun k => (kid k, pem k)) <$> ks1 ++ key :: ks2)
            !! kid key = Some (pem key)) as Hkid.
  { rewrite fmap_app, fmap_cons. apply new_Map_lookup_last.
    apply Forall_fmap. by eapply Forall_impl; [exact Hlast|]. }
  split; [done|].
  by rewrite (verifyToken_known_kid _ cfg _ _ _ _ _ Hjwks Hkid Hcfg).
Qed.

(** A service fresh from the constructor is in that state. *)
Lemma verifyToken_after_constructor configService tr this token kid :
  constructor configService httpClient = (tr, Return this) ->
  verifyToken httpClient lib this token kid
  = ([], Throw (TypeError
                  "Cannot read properties of undefined (reading 'jwks_uri')")).
Proof.
  intros Hnew. unfold verifyToken.
  by rewrite (getJWKs_undefined_config this
                (proj1 (constructor_Return configService tr this Hnew))).
Qed.

(** *** generateToken *)

(** With a discovery document in place the body is logged and posted to
    whatever [token_endpoint] holds; the promise of [post] is the outcome. *)
Lemma generateToken_config this cfg tokenData :
  config this = Some cfg ->
  let data :=
    match tokenData with
    | Some td => stringify lib (password_grant this td)
    | None => stringify lib (client_credentials_grant this)
    end in
  generateToken httpClient lib this tokenData
  = ([ConsoleLog data;
      HttpPost (token_endpoint cfg) (FormData data) token_request_config],
     completion (await (post httpClient TToken (token_endpoint cfg)
                          (FormData data) token_request_config))).
Proof.
  intros Hcfg data. unfold generateToken, config_member. rewrite Hcfg.
  fold data. run. fold token_request_config.
  by destruct (post httpClient TToken _ _ _); run.
Qed.

(** While [config] is undefined the TypeError is thrown inside the [try]
    block, logged by the [catch] clause and thrown again; nothing is
    posted. *)
Lemma generateToken_undefined_config this tokenData :
  config this = None ->
  let data :=
    match tokenData with
    | Some td => stringify lib (password_grant this td)
    | None => stringify lib (client_credentials_grant this)
    end in
  let err :=
    TypeError "Cannot read properties of undefined (reading 'token_endpoint')" in
  generateToken httpClient lib this tokenData
  = ([ConsoleLog data; LogError err], Throw err).
Proof.
  intros Hcfg data err. unfold generateToken, config_member. rewrite Hcfg.
  fold data. by run.
Qed.

(** C5: without credentials the body is the form encoding of the
    client-credentials grant with the admin client's id and secret; with a
    user name and password it is the form encoding of the password grant
    with the user-facing client's id and secret; either body is posted to
    the discovered token endpoint with the form content type. *)
Theorem generateToken_requests this cfg username password :
  config this = Some cfg ->
  let admin_body :=
    stringify lib
      [("grant_type", Some "client_credentials");
       ("client_id", Some (client_id (clientAdmin this)));
       ("client_secret", client_secret (clientAdmin this))] in
  let user_body :=
    stringify lib
      [("username", Some username);
       ("password", Some password);
       ("grant_type", Some "password");
       ("client_id", Some (client_id (clientUser this)));
       ("client_secret", client_secret (clientUser this))] in
  let request_config :=
    {| headers := [("Content-Type", "application/x-www-form-urlencoded")];
       responseType := Some "json" |} in
  trace (generateToken httpClient lib this None)
  = [ConsoleLog admin_body;
     HttpPost (token_endpoint cfg) (FormData admin_body) request_config]
  /\ trace (generateToken httpClient lib this
              (Some {| gt_username := username; gt_password := password |}))
     = [ConsoleLog user_body;
        HttpPost (token_endpoint cfg) (FormData user_body) request_config].
Proof.
  intros Hcfg admin_body user_body request_config.
  split; by rewrite (generateToken_config _ cfg _ Hcfg).
Qed.

(** C6, the code at the failing input: with a discovery document whose
    [token_endpoint] is undefined or empty, [generateToken] raises no
    configuration error; it posts the body to that missing endpoint and ends
    as the HTTP client's promise does. *)
Theorem generateToken_missing_token_endpoint this cfg tokenData :
  config this = Some cfg ->
  truthy (token_endpoint cfg) = false ->
  exists data,
    generateToken httpClient lib this tokenData
    = ([ConsoleLog data;
        HttpPost (token_endpoint cfg) (FormData data) token_request_config],
       completion (await (post httpClient TToken (token_endpoint cfg)
                            (FormData data) token_request_config)))
    /\ existsb is_network
         (trace (generateToken httpClient lib this tokenData)) = true.
Proof.
  intros Hcfg _. eexists.
  rewrite (generateToken_config _ cfg _ Hcfg). by split.
Qed.

(** *** introspectToken *)

Lemma introspectToken_missing_endpoint this cfg token :
  config this = Some cfg ->
  truthy (introspection_endpoint cfg) = false ->
  introspectToken httpClient lib this token
  = ([], Throw (AssertionError
                  ("Missing " +:+ dq +:+ "introspection_endpoint" +:+ dq))).
Proof.
  intros Hcfg Hfalsy. unfold introspectToken, config_member. rewrite Hcfg.
  run. rewrite (ok_falsy _ _ Hfalsy). by run.
Qed.

(** C7, the code at the failing input: while [config] is undefined
    [introspectToken] makes no network call, and it ends with the TypeError
    of reading [introspection_endpoint] of undefined, not with the error of
    its presence check. *)
Theorem introspectToken_before_discovery this token :
  config this = None ->
  introspectToken httpClient lib this token
  = ([], Throw (TypeError
       "Cannot read properties of undefined (reading 'introspection_endpoint')")).
Proof.
  intros Hcfg. unfold introspectToken, config_member. by rewrite Hcfg.
Qed.

(** *** registerUser *)

(** With the admin token acquired: one token request, then one POST of the
    user representation with the bearer header; a rejection of that POST is
    logged and thrown again. *)
Lemma registerUser_token_acquired this cfg d t :
  config this = Some cfg ->
  let data := stringify lib (client_credentials_grant this) in
  post httpClient TToken (token_endpoint cfg) (FormData data)
    token_request_config = Resolved t ->
  let create :=
    post httpClient TUnknown (Some (users_url this))
      (JsonData (user_representation d)) (users_request_config t) in
  registerUser httpClient lib this d
  = ([LogDebug "Called registerUser";
      ConsoleLog data;
      HttpPost (token_endpoint cfg) (FormData data) token_request_config;
      ConsoleLog (token_type t +:+ " " +:+ access_token t);
      HttpPost (Some (users_url this)) (JsonData (user_representation d))
        (users_request_config t)]
     ++ match create with
        | Resolved _ => []
        | Rejected e => [LogError e]
        end,
     match create with
     | Resolved _ => Return tt
     | Rejected e => Throw e
     end).
Proof.
  intros Hcfg data Htoken create. unfold registerUser. run.
  rewrite (generateToken_config _ cfg None Hcfg). fold data.
  rewrite Htoken. run. unfold bearer. fold (users_request_config t).
  fold create. by destruct create as [[]|e]; run.
Qed.

(** C8, the code at the failing input: when the token request is rejected,
    [registerUser] fails with that error and no POST to the users
    endpoint, but nothing is logged: the [catch] clause of [generateToken]
    has been left when the promise rejects, and the [await] of
    [registerUser] stands outside its own [try]. *)
Theorem registerUser_token_rejection_unlogged this cfg d e :
  config this = Some cfg ->
  let data := stringify lib (client_credentials_grant this) in
  post httpClient TToken (token_endpoint cfg) (FormData data)
    token_request_config = Rejected e ->
  registerUser httpClient lib this d
  = ([LogDebug "Called registerUser";
      ConsoleLog data;
      HttpPost (token_endpoint cfg) (FormData data) token_request_config],
     Throw e)
  /\ existsb is_LogError (trace (registerUser httpClient lib this d)) = false.
Proof.
  intros Hcfg data Htoken.
  assert (registerUser httpClient lib this d
          = ([LogDebug "Called registerUser"; ConsoleLog data;
              HttpPost (token_endpoint cfg) (FormData data)
                token_request_config], Throw e)) as Heq.
  { unfold registerUser. run.
    rewrite (generateToken_config _ cfg None Hcfg). fold data.
    rewrite Htoken. by run. }
  split; [done|]. by rewrite Heq.
Qed.


End Methods.

(** ** The service in the concrete environment *)

Lemma lib_checks_issuer : checks_issuer Doubles.lib.
Proof.
  intros token key iss algs d Hnonempty Hd Hne.
  cbn [jwt_decode verify Doubles.lib] in *. unfold Doubles.verify_by_key_type.
  destruct (Doubles.known token) as [t|]; [|done].
  injection Hd as <-. destruct key as [k|]; [|by eauto].
  cbn [vo_algorithms vo_issuer].
  destruct (negb _); [by eauto|]. destruct (negb _); [by eauto|].
  rewrite (proj2 (truthy_Some iss) Hnonempty).
  destruct (Doubles.option_string_eqb _ _) eqn:Heq; [|by eauto].
  exfalso. apply Hne.
  destruct (payload_iss (Doubles.kt_decoded t)) as [i|]; [|done].
  apply String.eqb_eq in Heq. by subst.
Qed.

Lemma verifyToken_unknown_kid_run :
  verifyToken Doubles.httpClient Doubles.lib Doubles.ready "rs256.good" "kid2"
  = ([HttpLoadJSON "http://kc/certs"], Throw unauthorized_invalid_jwt)
  /\ existsb is_JwtVerify
       (trace (verifyToken Doubles.httpClient Doubles.lib Doubles.ready
                 "rs256.good" "kid2")) = false.
Proof.
  apply (verifyToken_unknown_kid Doubles.httpClient Doubles.lib Doubles.ready
           "rs256.good" "kid2" [HttpLoadJSON "http://kc/certs"] Doubles.pems);
    vm_compute; reflexivity.
Defined.

Lemma verifyToken_delegates_algorithm_run :
  exists cfg,
    config Doubles.ready = Some cfg
    /\ verifyToken Doubles.httpClient Doubles.lib Doubles.ready
         "rs256.good" "kid1"
       = ([HttpLoadJSON "http://kc/certs"]
          ++ [JwtVerify "rs256.good" (Some Doubles.pem_new)
                {| vo_issuer := issuer cfg; vo_algorithms := None |}],
          match verify Doubles.lib "rs256.good" (Some Doubles.pem_new)
                  {| vo_issuer := issuer cfg; vo_algorithms := None |} with
          | inr claims => Return claims
          | inl e => Throw e
          end).
Proof.
  apply (verifyToken_delegates_algorithm Doubles.httpClient Doubles.lib
           Doubles.ready "rs256.good" "kid1" [HttpLoadJSON "http://kc/certs"]
           Doubles.pems Doubles.pem_new);
    vm_compute; reflexivity.
Defined.

(** C3, as stated, fails: the signature of the token checks under the key
    found for its key id and its issuer is not the cached one, yet the
    method ends with the JsonWebTokenError of the library and not with an
    UnauthorizedException. *)
Lemma verifyToken_issuer_mismatch_not_unauthorized :
  Doubles.pems !! "kid1" = Some Doubles.pem_new
  /\ verify Doubles.lib "rs256.other-issuer" (Some Doubles.pem_new)
       {| vo_issuer := None; vo_algorithms := None |}
     = inr [("iss", "http://evil/realms/bc"); ("sub", "alice")]
  /\ payload_iss <$> jwt_decode Doubles.lib "rs256.other-issuer"
     = Some (Some "http://evil/realms/bc")
  /\ issuer Doubles.oidc = Some "http://kc/realms/bc"
  /\ verifyToken Doubles.httpClient Doubles.lib Doubles.ready
       "rs256.other-issuer" "kid1"
     = ([HttpLoadJSON "http://kc/certs";
         JwtVerify "rs256.other-issuer" (Some Doubles.pem_new)
           {| vo_issuer := Some "http://kc/realms/bc";
              vo_algorithms := None |}],
        Throw (Error "JsonWebTokenError"
                 "jwt issuer invalid. expected: http://kc/realms/bc"))
  /\ is_UnauthorizedException
       (completion (verifyToken Doubles.httpClient Doubles.lib Doubles.ready
                      "rs256.other-issuer" "kid1")) = false.
Proof. by vm_compute. Qed.

Lemma verifyToken_issuer_mismatch_run :
  exists e,
    verify Doubles.lib "rs256.other-issuer" (Some Doubles.pem_new)
      {| vo_issuer := Some "http://kc/realms/bc"; vo_algorithms := None |}
    = inl e
    /\ verifyToken Doubles.httpClient Doubles.lib Doubles.ready
         "rs256.other-issuer" "kid1"
       = ([HttpLoadJSON "http://kc/certs"]
          ++ [JwtVerify "rs256.other-issuer" (Some Doubles.pem_new)
                {| vo_issuer := Some "http://kc/realms/bc";
                   vo_algorithms := None |}],
          Throw e).
Proof.
  apply (verifyToken_issuer_mismatch Doubles.httpClient Doubles.lib
           Doubles.ready Doubles.oidc "http://kc/realms/bc"
           "rs256.other-issuer"
           {| header_alg := "RS256";
              payload_iss := Some "http://evil/realms/bc" |}
           "kid1" [HttpLoadJSON "http://kc/certs"] Doubles.pems
           Doubles.pem_new lib_checks_issuer);
    try (vm_compute; reflexivity); intros [=].
Defined.

Lemma verifyToken_before_discovery_run :
  verifyToken Doubles.httpClient Doubles.lib Doubles.fresh "rs256.good" "kid1"
  = ([], Throw (TypeError
                  "Cannot read properties of undefined (reading 'jwks_uri')")).
Proof.
  apply (verifyToken_before_discovery Doubles.httpClient Doubles.lib
           Doubles.fresh "rs256.good" "kid1").
  reflexivity.
Defined.

Lemma generateToken_requests_run :
  trace (generateToken Doubles.httpClient Doubles.lib Doubles.ready None)
  = [ConsoleLog
       "grant_type=client_credentials&client_id=admin-cli&client_secret=admin-secret";
     HttpPost (Some "http://kc/token")
       (FormData
          "grant_type=client_credentials&client_id=admin-cli&client_secret=admin-secret")
       {| headers := [("Content-Type", "application/x-www-form-urlencoded")];
          responseType := Some "json" |}]
  /\ trace (generateToken Doubles.httpClient Doubles.lib Doubles.ready
              (Some {| gt_username := "u"; gt_password := "pw" |}))
     = [ConsoleLog
          "username=u&password=pw&grant_type=password&client_id=web&client_secret=web-secret";
        HttpPost (Some "http://kc/token")
          (FormData
             "username=u&password=pw&grant_type=password&client_id=web&client_secret=web-secret")
          {| headers := [("Content-Type", "application/x-www-form-urlencoded")];
             responseType := Some "json" |}].
Proof.
  apply (generateToken_requests Doubles.httpClient Doubles.lib Doubles.ready
           Doubles.oidc "u" "pw").
  reflexivity.
Defined.

Lemma generateToken_missing_token_endpoint_run :
  exists data,
    generateToken Doubles.httpClient Doubles.lib
      Doubles.ready_no_token_endpoint None
    = ([ConsoleLog data;
        HttpPost None (FormData data) token_request_config],
       completion (await (post Doubles.httpClient TToken None
                            (FormData data) token_request_config)))
    /\ existsb is_network
         (trace (generateToken Doubles.httpClient Doubles.lib
                   Doubles.ready_no_token_endpoint None)) = true.
Proof.
  apply (generateToken_missing_token_endpoint Doubles.httpClient Doubles.lib
           Doubles.ready_no_token_endpoint Doubles.oidc_no_token_endpoint None);
    reflexivity.
Defined.

Lemma introspectToken_before_discovery_run :
  introspectToken Doubles.httpClient Doubles.lib Doubles.fresh "abc"
  = ([], Throw (TypeError
       "Cannot read properties of undefined (reading 'introspection_endpoint')")).
Proof.
  apply (introspectToken_before_discovery Doubles.httpClient Doubles.lib
           Doubles.fresh "abc").
  reflexivity.
Defined.

Lemma registerUser_token_rejection_unlogged_run :
  registerUser Doubles.httpClient_token_refused Doubles.lib Doubles.ready
    Doubles.alice
  = ([LogDebug "Called registerUser";
      ConsoleLog
        "grant_type=client_credentials&client_id=admin-cli&client_secret=admin-secret";
      HttpPost (Some "http://kc/token")
        (FormData
           "grant_type=client_credentials&client_id=admin-cli&client_secret=admin-secret")
        token_request_config],
     Throw Doubles.refused)
  /\ existsb is_LogError
       (trace (registerUser Doubles.httpClient_token_refused Doubles.lib
                 Doubles.ready Doubles.alice)) = false.
Proof.
  apply (registerUser_token_rejection_unlogged
           Doubles.httpClient_token_refused Doubles.lib Doubles.ready
           Doubles.oidc Doubles.alice Doubles.refused);
    reflexivity.
Defined.

(** C9, as stated, fails: without the secret of the user-facing client the
    constructor returns the service and issues the discovery request. *)
Lemma constructor_without_user_secret :
  get Doubles.configService_public_client ENV_KEYCLOAK_USER_CLIENT_SECRET
  = None
  /\ constructor Doubles.configService_public_client Doubles.httpClient
     = ([HttpLoadJSON
           "http://kc/realms/bc/.well-known/openid-configuration"],
        Return
          {| server_uri := "http://kc"; realm := "bc"; config := None;
             clientAdmin := {| client_id := "admin-cli";
                               client_secret := Some "admin-secret" |};
             clientUser := {| client_id := "web"; client_secret := None |} |}).
Proof. by vm_compute. Qed.

Lemma constructor_fails_fast_run :
  exists message,
    message ∈ constructor_messages
    /\ constructor Doubles.configService_no_realm Doubles.httpClient
       = ([], Throw (AssertionError message)).
Proof.
  apply (constructor_fails_fast Doubles.httpClient
           Doubles.configService_no_realm).
  left. reflexivity.
Defined.

Lemma getJWKs_last_kid_wins_run :
  exists pems,
    getJWKs Doubles.httpClient Doubles.lib Doubles.ready
    = ([HttpLoadJSON "http://kc/certs"], Return pems)
    /\ pems !! "kid1" = Some "PUBLIC KEY rsa n-new AQAB"
    /\ trace (verifyToken Doubles.httpClient Doubles.lib Doubles.ready
                "rs256.good" "kid1")
       = [HttpLoadJSON "http://kc/certs";
          JwtVerify "rs256.good" (Some "PUBLIC KEY rsa n-new AQAB")
            {| vo_issuer := Some "http://kc/realms/bc";
               vo_algorithms := None |}].
Proof.
  apply (getJWKs_last_kid_wins Doubles.httpClient Doubles.lib Doubles.ready
           Doubles.oidc "http://kc/certs" Doubles.jwks Doubles.pem_text
           [ {| kid := "kid1"; jwk := RSAKey "n-old" "AQAB" |};
             {| kid := "kid3"; jwk := ECKey "P-256" "x3" "y3" |} ]
           {| kid := "kid1"; jwk := RSAKey "n-new" "AQAB" |} []
           "rs256.good");
    try reflexivity.
  - repeat constructor.
  - constructor.
Defined.

(** A conflict answered to the creation of a user is logged and thrown to
    the caller. *)
Example registerUser_conflict_logged :
  registerUser Doubles.httpClient_conflict Doubles.lib Doubles.ready
    Doubles.alice
  = ([LogDebug "Called registerUser";
      ConsoleLog
        "grant_type=client_credentials&client_id=admin-cli&client_secret=admin-secret";
      HttpPost (Some "http://kc/token")
        (FormData
           "grant_type=client_credentials&client_id=admin-cli&client_secret=admin-secret")
        token_request_config;
      ConsoleLog "Bearer adm";
      HttpPost (Some "http://kc/admin/realms/bc/users")
        (JsonData (user_representation Doubles.alice))
        (users_request_config Doubles.admin_token);
      LogError Doubles.conflict],
     Throw Doubles.conflict).
Proof. reflexivity. Qed.

(** * Further behaviour of the methods *)

Section Behaviour.

Context (httpClient : HttpClientService) (lib : Libraries).

Implicit Types (this : KeyCloakService) (cfg : OIDCIdentityConfig).

Ltac exec :=
  repeat progress
    (unfold mret, M_ret, ret, throw, emit, httpClient_post,
       httpClient_loadJSON, jwt_verify;
     cbn [await call try_catch render trace completion fst snd app negb keys];
     rewrite ?bind_Return, ?bind_Throw).

(** ** Shared steps *)

(** Up to the answer of the key-set request. *)
Lemma getJWKs_requested this cfg uri :
  config this = Some cfg ->
  jwks_uri cfg = Some uri ->
  truthy (Some uri) = true ->
  getJWKs httpClient lib this
  = ([HttpLoadJSON uri],
     match loadJSON httpClient TJwks uri with
     | Rejected e => Throw e
     | Resolved data =>
         match keys data with
         | None => Throw jwks_download_failed
         | Some ks =>
             match completion (array_map (jwks_entry lib) ks) with
             | Return entries => Return (new_Map entries)
             | Throw e => Throw e
             end
         end
     end).
Proof.
  intros Hcfg Huri Htruthy.
  unfold getJWKs, config_member. rewrite Hcfg. exec. rewrite Huri.
  unfold ok. rewrite Htruthy. exec.
  destruct (loadJSON httpClient TJwks uri) as [[[ks|]]|e]; exec; try done.
  pose proof (array_map_jwks_entry_trace lib ks) as Htr.
  destruct (array_map (jwks_entry lib) ks) as [tr [entries|e]];
    simpl in Htr; subst; by exec.
Qed.

Lemma verifyToken_kid_absent this token kid tr pems :
  getJWKs httpClient lib this = (tr, Return pems) ->
  pems !! kid = None ->
  verifyToken httpClient lib this token kid
  = (tr, Throw unauthorized_invalid_jwt).
Proof.
  intros Hjwks Hkid. unfold verifyToken. rewrite Hjwks. exec.
  unfold Map_has. rewrite Hkid.
  rewrite bool_decide_eq_false_2 by (by intros [? ?]).
  exec. by rewrite app_nil_r.
Qed.


Lemma verifyToken_getJWKs_Throw this token kid tr e :
  getJWKs httpClient lib this = (tr, Throw e) ->
  verifyToken httpClient lib this token kid = (tr, Throw e).
Proof. intros Hjwks. unfold verifyToken. by rewrite Hjwks. Qed.

(** The conversion of the keys stops at the first key that is refused. *)
Lemma array_map_jwks_entry_refused ks1 key ks2 e :
  Forall (fun k => exists p, jwkToPem lib k = inr p) ks1 ->
  jwkToPem lib key = inl e ->
  array_map (jwks_entry lib) (ks1 ++ key :: ks2) = ([], Throw e).
Proof.
  intros Hks1 Hkey. induction Hks1 as [|k ks1 [p Hk] _ IH].
  - cbn [app array_map]. by rewrite (jwks_entry_inl _ _ _ Hkey).
  - cbn [app array_map]. rewrite (jwks_entry_inr _ _ _ Hk), bind_Return, IH.
    done.
Qed.

Lemma foldl_set_dom (entries : list (string * string))
    (m : gmap string string) :
  dom (foldl (fun m kv => <[kv.1 := kv.2]> m) m entries)
  = dom m ∪ list_to_set entries.*1.
Proof.
  revert m. induction entries as [|[k v] entries IH]; intros m.
  - cbn [foldl]. rewrite fmap_nil, list_to_set_nil.
    apply set_eq. intros x. rewrite elem_of_union, elem_of_empty. tauto.
  - cbn [foldl fst snd]. rewrite IH, dom_insert_L, fmap_cons, list_to_set_cons.
    cbn [fst]. apply set_eq. intros x. rewrite !elem_of_union. tauto.
Qed.

(** The keys of the key map are the keys of the entries. *)
Lemma new_Map_dom (entries : list (string * string)) :
  dom (new_Map entries) = list_to_set entries.*1.
Proof.
  unfold new_Map. rewrite foldl_set_dom, dom_empty_L.
  apply set_eq. intros x. rewrite elem_of_union, elem_of_empty. tauto.
Qed.

(** ** getJWKs and verifyToken *)

(** X1: with a discovery document that names no key set ([jwks_uri]
    undefined or empty), [getJWKs] fails with the error of its presence
    check, and so does [verifyToken] for every token and key id, without
    any network call and without a call to [verify]. *)
Theorem verifyToken_missing_jwks_uri this cfg token kid :
  config this = Some cfg ->
  truthy (jwks_uri cfg) = false ->
  getJWKs httpClient lib this = ([], Throw missing_jwks_uri)
  /\ verifyToken httpClient lib this token kid = ([], Throw missing_jwks_uri).
Proof.
  intros Hcfg Hfalsy.
  assert (getJWKs httpClient lib this = ([], Throw missing_jwks_uri)) as Hjwks.
  { unfold getJWKs, config_member. rewrite Hcfg. exec.
    rewrite (ok_falsy _ _ Hfalsy). by exec. }
  split; [done|]. by apply verifyToken_getJWKs_Throw.
Qed.

(** X2: when the key-set request is rejected, [getJWKs] and [verifyToken]
    fail with the reason of the rejection, unchanged, after that one
    request; [verify] is not called. *)
Theorem verifyToken_jwks_request_rejected this cfg uri e token kid :
  config this = Some cfg ->
  jwks_uri cfg = Some uri ->
  truthy (Some uri) = true ->
  loadJSON httpClient TJwks uri = Rejected e ->
  getJWKs httpClient lib this = ([HttpLoadJSON uri], Throw e)
  /\ verifyToken httpClient lib this token kid = ([HttpLoadJSON uri], Throw e).
Proof.
  intros Hcfg Huri Htruthy Hload.
  assert (getJWKs httpClient lib this = ([HttpLoadJSON uri], Throw e))
    as Hjwks.
  { rewrite (getJWKs_requested _ _ _ Hcfg Huri Htruthy). by rewrite Hload. }
  split; [done|]. by apply verifyToken_getJWKs_Throw.
Qed.

(** X3: an answer without a [keys] member makes [getJWKs], and with it
    [verifyToken], fail with the InternalServerErrorException. *)
Theorem verifyToken_jwks_without_keys this cfg uri token kid :
  config this = Some cfg ->
  jwks_uri cfg = Some uri ->
  truthy (Some uri) = true ->
  loadJSON httpClient TJwks uri = Resolved {| keys := None |} ->
  getJWKs httpClient lib this = ([HttpLoadJSON uri], Throw jwks_download_failed)
  /\ verifyToken httpClient lib this token kid
     = ([HttpLoadJSON uri], Throw jwks_download_failed).
Proof.
  intros Hcfg Huri Htruthy Hload.
  assert (getJWKs httpClient lib this
          = ([HttpLoadJSON uri], Throw jwks_download_failed)) as Hjwks.
  { rewrite (getJWKs_requested _ _ _ Hcfg Huri Htruthy). by rewrite Hload. }
  split; [done|]. by apply verifyToken_getJWKs_Throw.
Qed.

(** X4: an empty [keys] array is no error: [getJWKs] returns the empty key
    map, and [verifyToken] then fails with the UnauthorizedException for
    every token and key id. *)
Theorem verifyToken_empty_key_set this cfg uri token kid :
  config this = Some cfg ->
  jwks_uri cfg = Some uri ->
  truthy (Some uri) = true ->
  loadJSON httpClient TJwks uri = Resolved {| keys := Some [] |} ->
  getJWKs httpClient lib this = ([HttpLoadJSON uri], Return ∅)
  /\ verifyToken httpClient lib this token kid
     = ([HttpLoadJSON uri], Throw unauthorized_invalid_jwt).
Proof.
  intros Hcfg Huri Htruthy Hload.
  assert (getJWKs httpClient lib this = ([HttpLoadJSON uri], Return ∅))
    as Hjwks.
  { rewrite (getJWKs_requested _ _ _ Hcfg Huri Htruthy). by rewrite Hload. }
  split; [done|].
  apply (verifyToken_kid_absent _ _ _ _ _ Hjwks). apply lookup_empty.
Qed.

(** X5: one key that jwk-to-pem refuses makes the whole of [getJWKs] fail
    with the error of the conversion: no map of the other keys is built, and
    [verifyToken] fails with that error for every key id, also for the id
    of a key that converts. *)
Theorem verifyToken_refused_key this cfg uri ks1 key ks2 e token kid :
  config this = Some cfg ->
  jwks_uri cfg = Some uri ->
  truthy (Some uri) = true ->
  loadJSON httpClient TJwks uri
  = Resolved {| keys := Some (ks1 ++ key :: ks2) |} ->
  Forall (fun k => exists p, jwkToPem lib k = inr p) ks1 ->
  jwkToPem lib key = inl e ->
  getJWKs httpClient lib this = ([HttpLoadJSON uri], Throw e)
  /\ verifyToken httpClient lib this token kid = ([HttpLoadJSON uri], Throw e).
Proof.
  intros Hcfg Huri Htruthy Hload Hks1 Hkey.
  assert (getJWKs httpClient lib this = ([HttpLoadJSON uri], Throw e))
    as Hjwks.
  { rewrite (getJWKs_requested _ _ _ Hcfg Huri Htruthy). rewrite Hload.
    cbn [keys]. by rewrite (array_map_jwks_entry_refused _ _ _ _ Hks1 Hkey). }
  split; [done|]. by apply verifyToken_getJWKs_Throw.
Qed.

(** X6: the key ids of the key map are exactly the [kid]s of the key set,
    whatever their order and however often each occurs. *)
Theorem getJWKs_key_ids this cfg uri ks (pem : JWKEntry -> string) :
  config this = Some cfg ->
  jwks_uri cfg = Some uri ->
  truthy (Some uri) = true ->
  loadJSON httpClient TJwks uri = Resolved {| keys := Some ks |} ->
  Forall (fun k => jwkToPem lib k = inr (pem k)) ks ->
  exists pems,
    getJWKs httpClient lib this = ([HttpLoadJSON uri], Return pems)
    /\ dom pems = list_to_set (kid <$> ks).
Proof.
  intros Hcfg Huri Htruthy Hload Hpem.
  eexists. split.
  - exact (getJWKs_keys _ _ _ _ _ _ _ Hcfg Huri Htruthy Hload Hpem).
  - rewrite new_Map_dom, <- list_fmap_compose. done.
Qed.

(** X7: [verify] is called exactly when the key id is the [kid] of some key
    of the key set; for every other key id the method fails with the
    UnauthorizedException after the key-set request. *)
Theorem verifyToken_verify_iff_listed this cfg uri ks (pem : JWKEntry -> string)
    token kid0 :
  config this = Some cfg ->
  jwks_uri cfg = Some uri ->
  truthy (Some uri) = true ->
  loadJSON httpClient TJwks uri = Resolved {| keys := Some ks |} ->
  Forall (fun k => jwkToPem lib k = inr (pem k)) ks ->
  existsb is_JwtVerify (trace (verifyToken httpClient lib this token kid0))
  = bool_decide (kid0 ∈ kid <$> ks)
  /\ (kid0 ∉ kid <$> ks ->
      verifyToken httpClient lib this token kid0
      = ([HttpLoadJSON uri], Throw unauthorized_invalid_jwt)).
Proof.
  intros Hcfg Huri Htruthy Hload Hpem.
  pose proof (getJWKs_keys _ _ _ _ _ _ _ Hcfg Huri Htruthy Hload Hpem)
    as Hjwks.
  set (pems := new_Map ((fun k => (kid k, pem k)) <$> ks)) in *.
  assert (forall k, is_Some (pems !! k) <-> k ∈ kid <$> ks) as Hdom.
  { intros k. rewrite <- elem_of_dom. unfold pems.
    rewrite new_Map_dom, <- list_fmap_compose, elem_of_list_to_set. done. }
  destruct (pems !! kid0) as [p|] eqn:Hkid.
  - assert (kid0 ∈ kid <$> ks) as Hin by (apply Hdom; eauto).
    rewrite (verifyToken_known_kid _ _ _ cfg _ _ _ _ _ Hjwks Hkid Hcfg).
    rewrite bool_decide_eq_true_2 by done. split; [|done].
    cbn [trace fst]. by rewrite existsb_app.
  - assert (kid0 ∉ kid <$> ks) as Hnin.
    { intros Hin. apply Hdom in Hin. rewrite Hkid in Hin. by destruct Hin. }
    rewrite (verifyToken_kid_absent _ _ _ _ _ Hjwks Hkid).
    rewrite bool_decide_eq_false_2 by done. by split.
Qed.

(** X8: with a key set named in the discovery document, [verifyToken]
    makes exactly one network call, the key-set request, whatever the
    answer, the token and the key id: the key map is fetched anew for each
    verification. *)
Theorem verifyToken_one_network_call this cfg uri token kid :
  config this = Some cfg ->
  jwks_uri cfg = Some uri ->
  truthy (Some uri) = true ->
  List.filter is_network (trace (verifyToken httpClient lib this token kid))
  = [HttpLoadJSON uri].
Proof.
  intros Hcfg Huri Htruthy.
  pose proof (getJWKs_requested _ _ _ Hcfg Huri Htruthy) as Hjwks.
  destruct (getJWKs httpClient lib this) as [tr [pems|e]] eqn:Hget;
    injection Hjwks as -> Hc.
  - destruct (pems !! kid) as [pem|] eqn:Hkid.
    + by rewrite (verifyToken_known_kid _ _ _ cfg _ _ _ _ _ Hget Hkid Hcfg).
    + by rewrite (verifyToken_kid_absent _ _ _ _ _ Hget Hkid).
  - by rewrite (verifyToken_getJWKs_Throw _ _ _ _ _ Hget).
Qed.

(** ** generateToken *)

(** X9: while [config] is undefined, [generateToken] posts nothing: the
    body of the grant is written to the console, then the TypeError of
    reading [token_endpoint] is thrown inside the [try] block, logged once
    by the [catch] clause and thrown to the caller. *)
Theorem generateToken_before_discovery this username password :
  config this = None ->
  let admin_body :=
    stringify lib
      [("grant_type", Some "client_credentials");
       ("client_id", Some (client_id (clientAdmin this)));
       ("client_secret", client_secret (clientAdmin this))] in
  let user_body :=
    stringify lib
      [("username", Some username);
       ("password", Some password);
       ("grant_type", Some "password");
       ("client_id", Some (client_id (clientUser this)));
       ("client_secret", client_secret (clientUser this))] in
  let err :=
    TypeError "Cannot read properties of undefined (reading 'token_endpoint')" in
  generateToken httpClient lib this None
  = ([ConsoleLog admin_body; LogError err], Throw err)
  /\ generateToken httpClient lib this
       (Some {| gt_username := username; gt_password := password |})
     = ([ConsoleLog user_body; LogError err], Throw err).
Proof.
  intros Hcfg admin_body user_body err.
  split; by rewrite (generateToken_undefined_config _ _ _ _ Hcfg).
Qed.

(** X10: with a discovery document cached, [generateToken] ends as the one
    request it posts: it returns the token of the answer or fails with the
    reason of the rejection, and in neither case does it log an error. *)
Theorem generateToken_outcome this cfg tokenData :
  config this = Some cfg ->
  exists data,
    completion (generateToken httpClient lib this tokenData)
    = match post httpClient TToken (token_endpoint cfg) (FormData data)
              token_request_config with
      | Resolved t => Return t
      | Rejected e => Throw e
      end
    /\ List.filter is_network
         (trace (generateToken httpClient lib this tokenData))
       = [HttpPost (token_endpoint cfg) (FormData data) token_request_config]
    /\ existsb is_LogError
         (trace (generateToken httpClient lib this tokenData)) = false.
Proof.
  intros Hcfg. eexists.
  rewrite (generateToken_config _ _ _ cfg tokenData Hcfg).
  cbn [completion trace fst snd]. split; [|by split].
  by destruct (post httpClient TToken _ _ _).
Qed.

(** ** introspectToken *)

(** X11: with a discovery document that names no introspection endpoint
    (undefined or empty), [introspectToken] fails with the error of its
    presence check before any request: no token is acquired and the token
    to introspect is sent nowhere. *)
Theorem introspectToken_endpoint_not_cached this cfg token :
  config this = Some cfg ->
  truthy (introspection_endpoint cfg) = false ->
  introspectToken httpClient lib this token
  = ([], Throw missing_introspection_endpoint)
  /\ existsb is_network (trace (introspectToken httpClient lib this token))
     = false.
Proof.
  intros Hcfg Hfalsy.
  assert (introspectToken httpClient lib this token
          = ([], Throw missing_introspection_endpoint)) as Heq.
  { unfold introspectToken, config_member. rewrite Hcfg. exec.
    rewrite (ok_falsy _ _ Hfalsy). by exec. }
  split; [done|]. by rewrite Heq.
Qed.

(** X12: with the endpoint cached and the admin token acquired,
    [introspectToken] posts the form encoding of [{token}] to the
    introspection endpoint, with the acquired token as Authorization header
    and the form content type, after exactly one client-credentials token
    request; it returns the answer of the provider or fails with the reason
    of its rejection. *)
Theorem introspectToken_request this cfg token t :
  config this = Some cfg ->
  truthy (introspection_endpoint cfg) = true ->
  let data := stringify lib (client_credentials_grant this) in
  post httpClient TToken (token_endpoint cfg) (FormData data)
    token_request_config = Resolved t ->
  let body := FormData (stringify lib [("token", Some token)]) in
  introspectToken httpClient lib this token
  = ([ConsoleLog data;
      HttpPost (token_endpoint cfg) (FormData data) token_request_config;
      HttpPost (introspection_endpoint cfg) body
        (introspection_request_config t)],
     match post httpClient TRecord (introspection_endpoint cfg) body
             (introspection_request_config t) with
     | Resolved answer => Return answer
     | Rejected e => Throw e
     end).
Proof.
  intros Hcfg Htruthy data Htoken body.
  destruct (ok_truthy _ ("Missing " +:+ dq +:+ "introspection_endpoint" +:+ dq)
              Htruthy) as (s & _ & Hok).
  unfold introspectToken, config_member. rewrite Hcfg. exec. rewrite Hok. exec.
  rewrite (generateToken_config _ _ _ cfg None Hcfg). fold data.
  rewrite Htoken. exec. unfold bearer. fold body.
  fold (introspection_request_config t).
  by destruct (post httpClient TRecord _ _ _); exec.
Qed.

(** X13: when the token request is rejected, [introspectToken] fails with
    the reason of the rejection and posts nothing to the introspection
    endpoint. *)
Theorem introspectToken_token_rejected this cfg token e :
  config this = Some cfg ->
  truthy (introspection_endpoint cfg) = true ->
  let data := stringify lib (client_credentials_grant this) in
  post httpClient TToken (token_endpoint cfg) (FormData data)
    token_request_config = Rejected e ->
  introspectToken httpClient lib this token
  = ([ConsoleLog data;
      HttpPost (token_endpoint cfg) (FormData data) token_request_config],
     Throw e).
Proof.
  intros Hcfg Htruthy data Htoken.
  destruct (ok_truthy _ ("Missing " +:+ dq +:+ "introspection_endpoint" +:+ dq)
              Htruthy) as (s & _ & Hok).
  unfold introspectToken, config_member. rewrite Hcfg. exec. rewrite Hok. exec.
  rewrite (generateToken_config _ _ _ cfg None Hcfg). fold data.
  rewrite Htoken. by exec.
Qed.

(** ** registerUser *)

(** X14: when both requests are answered, [registerUser] returns after
    exactly one token request and one POST of the user representation
    (user name set to the e-mail address, enabled, a password that is not
    temporary) to [{server_uri}/admin/realms/{realm}/users] with the
    acquired token as Authorization header; the header value is also
    written to the console; nothing is logged as an error. *)
Theorem registerUser_created this cfg d t :
  config this = Some cfg ->
  let data := stringify lib (client_credentials_grant this) in
  post httpClient TToken (token_endpoint cfg) (FormData data)
    token_request_config = Resolved t ->
  post httpClient TUnknown
    (Some (server_uri this +:+ "/admin/realms/" +:+ realm this +:+ "/users"))
    (JsonData (user_representation d)) (users_request_config t)
  = Resolved tt ->
  registerUser httpClient lib this d
  = ([LogDebug "Called registerUser";
      ConsoleLog data;
      HttpPost (token_endpoint cfg) (FormData data) token_request_config;
      ConsoleLog (token_type t +:+ " " +:+ access_token t);
      HttpPost
        (Some (server_uri this +:+ "/admin/realms/" +:+ realm this +:+ "/users"))
        (JsonData (user_representation d)) (users_request_config t)],
     Return tt).
Proof.
  intros Hcfg data Htoken Hcreate.
  rewrite (registerUser_token_acquired _ _ _ cfg d t Hcfg Htoken).
  unfold users_url. by rewrite Hcreate.
Qed.

(** X15: when the provider rejects the creation of the user, [registerUser]
    logs the reason once, after the two requests, and fails with it
    unchanged. *)
Theorem registerUser_creation_rejected this cfg d t e :
  config this = Some cfg ->
  let data := stringify lib (client_credentials_grant this) in
  post httpClient TToken (token_endpoint cfg) (FormData data)
    token_request_config = Resolved t ->
  post httpClient TUnknown
    (Some (server_uri this +:+ "/admin/realms/" +:+ realm this +:+ "/users"))
    (JsonData (user_representation d)) (users_request_config t)
  = Rejected e ->
  completion (registerUser httpClient lib this d) = Throw e
  /\ List.filter is_LogError (trace (registerUser httpClient lib this d))
     = [LogError e]
  /\ List.filter is_network (trace (registerUser httpClient lib this d))
     = [HttpPost (token_endpoint cfg) (FormData data) token_request_config;
        HttpPost
          (Some (server_uri this +:+ "/admin/realms/" +:+ realm this
                 +:+ "/users"))
          (JsonData (user_representation d)) (users_request_config t)].
Proof.
  intros Hcfg data Htoken Hcreate.
  rewrite (registerUser_token_acquired _ _ _ cfg d t Hcfg Htoken).
  unfold users_url. rewrite Hcreate. by repeat split.
Qed.

(** X16: while [config] is undefined, [registerUser] makes no network call:
    the TypeError of [generateToken] is logged once (there) and reaches the
    caller. *)
Theorem registerUser_before_discovery this d :
  config this = None ->
  let err :=
    TypeError "Cannot read properties of undefined (reading 'token_endpoint')" in
  registerUser httpClient lib this d
  = ([LogDebug "Called registerUser";
      ConsoleLog (stringify lib (client_credentials_grant this));
      LogError err],
     Throw err).
Proof.
  intros Hcfg err. unfold registerUser. exec.
  rewrite (generateToken_undefined_config _ _ _ None Hcfg). by exec.
Qed.

End Behaviour.

(** ** Construction and startup *)

Section Startup.

Context (configService : ConfigService) (httpClient : HttpClientService)
        (lib : Libraries).

Implicit Types (this : KeyCloakService).

Ltac exec :=
  repeat progress
    (unfold mret, M_ret, ret, throw, emit, httpClient_post,
       httpClient_loadJSON, jwt_verify;
     cbn [await call try_catch render trace completion fst snd app negb keys];
     rewrite ?bind_Return, ?bind_Throw).

Lemma ok_cases (v : option string) (message : string) :
  (truthy v = true /\ exists s, v = Some s /\ ok v message = ([], Return s))
  \/ (truthy v = false /\ ok v message = ([], Throw (AssertionError message))).
Proof.
  destruct (truthy v) eqn:Hv.
  - left. split; [done|]. destruct (ok_truthy v message Hv) as (s & -> & Hok).
    by exists s.
  - right. split; [done|]. by apply ok_falsy.
Qed.

(** What a successful construction has read and built. *)
Lemma constructor_inv tr this :
  constructor configService httpClient = (tr, Return this) ->
  exists r u ui ai,
    get configService ENV_KEYCLOAK_REALM = Some r
    /\ get configService ENV_KEYCLOAK_SERVER_URI = Some u
    /\ get configService ENV_KEYCLOAK_USER_CLIENT_ID = Some ui
    /\ get configService ENV_KEYCLOAK_ADMIN_CLIENT_ID = Some ai
    /\ tr = [HttpLoadJSON (discovery_url u r)]
    /\ this
       = {| server_uri := u; realm := r; config := None;
            clientAdmin :=
              {| client_id := ai;
                 client_secret :=
                   get configService ENV_KEYCLOAK_ADMIN_CLIENT_SECRET |};
            clientUser :=
              {| client_id := ui;
                 client_secret :=
                   get configService ENV_KEYCLOAK_USER_CLIENT_SECRET |} |}.
Proof.
  unfold constructor.
  destruct (ok_cases (get configService ENV_KEYCLOAK_REALM)
              (dq +:+ "realm" +:+ dq +:+ " is not defined."))
    as [(_ & r & Hr & ->)|(_ & ->)]; exec; [|done].
  destruct (ok_cases (get configService ENV_KEYCLOAK_SERVER_URI)
              (dq +:+ "metadata_uri" +:+ dq +:+ " is not defined."))
    as [(_ & u & Hu & ->)|(_ & ->)]; exec; [|done].
  destruct (ok_cases (get configService ENV_KEYCLOAK_USER_CLIENT_ID)
              (dq +:+ "client_id" +:+ dq +:+ " is not defined."))
    as [(_ & ui & Hui & ->)|(_ & ->)]; exec; [|done].
  destruct (ok_cases (get configService ENV_KEYCLOAK_ADMIN_CLIENT_ID)
              ("Admin " +:+ dq +:+ "client_id" +:+ dq +:+ " is not defined."))
    as [(_ & ai & Hai & ->)|(_ & ->)]; exec; [|done].
  destruct (ok_cases (get configService ENV_KEYCLOAK_ADMIN_CLIENT_SECRET)
              ("Admin " +:+ dq +:+ "client_secret" +:+ dq +:+ " is not defined."))
    as [(_ & asec & Has & ->)|(_ & ->)]; exec; [|done].
  intros [= <- <-]. by exists r, u, ui, ai.
Qed.

(** X17: a service that the constructor returns holds the configured
    values: realm, server URI, and the id and secret of both clients are
    those of the configuration; it has no discovery document yet, and the
    one request issued is the discovery request to
    [{server_uri}/realms/{realm}/.well-known/openid-configuration]. *)
Theorem constructor_Return_fields tr this :
  constructor configService httpClient = (tr, Return this) ->
  get configService ENV_KEYCLOAK_REALM = Some (realm this)
  /\ get configService ENV_KEYCLOAK_SERVER_URI = Some (server_uri this)
  /\ get configService ENV_KEYCLOAK_USER_CLIENT_ID
     = Some (client_id (clientUser this))
  /\ get configService ENV_KEYCLOAK_USER_CLIENT_SECRET
     = client_secret (clientUser this)
  /\ get configService ENV_KEYCLOAK_ADMIN_CLIENT_ID
     = Some (client_id (clientAdmin this))
  /\ get configService ENV_KEYCLOAK_ADMIN_CLIENT_SECRET
     = client_secret (clientAdmin this)
  /\ config this = None
  /\ tr = [HttpLoadJSON
             (server_uri this +:+ "/realms/" +:+ realm this
              +:+ "/.well-known/openid-configuration")].
Proof.
  intros Hnew.
  destruct (constructor_inv _ _ Hnew)
    as (r & u & ui & ai & Hr & Hu & Hui & Hai & -> & ->).
  cbn [realm server_uri clientUser clientAdmin client_id client_secret config].
  by repeat split.
Qed.

(** X18: the assertions run in the order realm, server URI, user client id,
    admin client id, admin client secret, and construction fails with the
    message of the first setting in that order that is undefined or empty,
    whatever the settings after it; no request is issued.  A missing server
    URI is reported under the name [metadata_uri]. *)
Theorem constructor_first_failed_assertion (i : nat) v message :
  constructor_checks configService !! i = Some (v, message) ->
  truthy v = false ->
  (forall j v' message',
      j < i ->
      constructor_checks configService !! j = Some (v', message') ->
      truthy v' = true) ->
  constructor configService httpClient = ([], Throw (AssertionError message)).
Proof.
  intros Hi Hv Hbefore. unfold constructor.
  destruct (ok_cases (get configService ENV_KEYCLOAK_REALM)
              (dq +:+ "realm" +:+ dq +:+ " is not defined."))
    as [(H0 & r & _ & ->)|(H0 & ->)]; exec;
    [|destruct i as [|i]; [by injection Hi as <- <-|];
      specialize (Hbefore 0 _ _ ltac:(lia) eq_refl); congruence].
  destruct i as [|i]; [injection Hi as <- <-; congruence|].
  destruct (ok_cases (get configService ENV_KEYCLOAK_SERVER_URI)
              (dq +:+ "metadata_uri" +:+ dq +:+ " is not defined."))
    as [(H1 & u & _ & ->)|(H1 & ->)]; exec;
    [|destruct i as [|i]; [by injection Hi as <- <-|];
      specialize (Hbefore 1 _ _ ltac:(lia) eq_refl); congruence].
  destruct i as [|i]; [injection Hi as <- <-; congruence|].
  destruct (ok_cases (get configService ENV_KEYCLOAK_USER_CLIENT_ID)
              (dq +:+ "client_id" +:+ dq +:+ " is not defined."))
    as [(H2 & ui & _ & ->)|(H2 & ->)]; exec;
    [|destruct i as [|i]; [by injection Hi as <- <-|];
      specialize (Hbefore 2 _ _ ltac:(lia) eq_refl); congruence].
  destruct i as [|i]; [injection Hi as <- <-; congruence|].
  destruct (ok_cases (get configService ENV_KEYCLOAK_ADMIN_CLIENT_ID)
              ("Admin " +:+ dq +:+ "client_id" +:+ dq +:+ " is not defined."))
    as [(H3 & ai & _ & ->)|(H3 & ->)]; exec;
    [|destruct i as [|i]; [by injection Hi as <- <-|];
      specialize (Hbefore 3 _ _ ltac:(lia) eq_refl); congruence].
  destruct i as [|i]; [injection Hi as <- <-; congruence|].
  destruct (ok_cases (get configService ENV_KEYCLOAK_ADMIN_CLIENT_SECRET)
              ("Admin " +:+ dq +:+ "client_secret" +:+ dq +:+ " is not defined."))
    as [(H4 & asec & _ & ->)|(H4 & ->)]; exec;
    [|destruct i as [|i]; [by injection Hi as <- <-|];
      specialize (Hbefore 4 _ _ ltac:(lia) eq_refl); congruence].
  destruct i as [|i]; [injection Hi as <- <-; congruence|done].
Qed.

(** X19: construction succeeds exactly when the five asserted settings are
    all defined and non-empty; neither the secret of the user-facing client
    nor the HTTP client has a say. *)
Theorem constructor_succeeds_iff :
  is_Return (completion (constructor configService httpClient))
  = forallb (fun check => truthy check.1) (constructor_checks configService).
Proof.
  unfold constructor, constructor_checks. cbn [forallb fst].
  destruct (ok_cases (get configService ENV_KEYCLOAK_REALM)
              (dq +:+ "realm" +:+ dq +:+ " is not defined."))
    as [(-> & r & _ & ->)|(-> & ->)]; exec; [|done].
  destruct (ok_cases (get configService ENV_KEYCLOAK_SERVER_URI)
              (dq +:+ "metadata_uri" +:+ dq +:+ " is not defined."))
    as [(-> & u & _ & ->)|(-> & ->)]; exec; [|done].
  destruct (ok_cases (get configService ENV_KEYCLOAK_USER_CLIENT_ID)
              (dq +:+ "client_id" +:+ dq +:+ " is not defined."))
    as [(-> & ui & _ & ->)|(-> & ->)]; exec; [|done].
  destruct (ok_cases (get configService ENV_KEYCLOAK_ADMIN_CLIENT_ID)
              ("Admin " +:+ dq +:+ "client_id" +:+ dq +:+ " is not defined."))
    as [(-> & ai & _ & ->)|(-> & ->)]; exec; [|done].
  destruct (ok_cases (get configService ENV_KEYCLOAK_ADMIN_CLIENT_SECRET)
              ("Admin " +:+ dq +:+ "client_secret" +:+ dq +:+ " is not defined."))
    as [(-> & asec & _ & ->)|(-> & ->)]; by exec.
Qed.

(** X20: a discovery request that is rejected does not undo the
    construction: the rejection goes to [console.error], the service stays
    without a discovery document, and since no method issues the discovery
    request again, [verifyToken] and [introspectToken] then end with the
    TypeError of reading a member of undefined. *)
Theorem startup_discovery_rejected tr this e token kid :
  constructor configService httpClient = (tr, Return this) ->
  loadJSON httpClient TConfig (discovery_url (server_uri this) (realm this))
  = Rejected e ->
  discovery_settled httpClient this = ([ConsoleError e], Return this)
  /\ verifyToken httpClient lib this token kid
     = ([], Throw (TypeError
                     "Cannot read properties of undefined (reading 'jwks_uri')"))
  /\ introspectToken httpClient lib this token
     = ([], Throw (TypeError
          "Cannot read properties of undefined (reading 'introspection_endpoint')")).
Proof.
  intros Hnew Hload.
  destruct (constructor_inv _ _ Hnew) as (r & u & ui & ai & _ & _ & _ & _ & _ & ->).
  split; [|split].
  - unfold discovery_settled. rewrite Hload. by exec.
  - unfold verifyToken. by rewrite getJWKs_undefined_config.
  - by unfold introspectToken, config_member.
Qed.

(** X21: from configuration to token request: once the discovery request
    of the constructor has been answered with a document, [generateToken()]
    posts to the [token_endpoint] of that document the client-credentials
    grant with the admin client id and secret of the configuration. *)
Theorem startup_then_generateToken tr this (c : OIDCIdentityConfig) :
  constructor configService httpClient = (tr, Return this) ->
  loadJSON httpClient TConfig (discovery_url (server_uri this) (realm this))
  = Resolved c ->
  let body :=
    stringify lib
      [("grant_type", Some "client_credentials");
       ("client_id", get configService ENV_KEYCLOAK_ADMIN_CLIENT_ID);
       ("client_secret", get configService ENV_KEYCLOAK_ADMIN_CLIENT_SECRET)] in
  exists this',
    discovery_settled httpClient this = ([], Return this')
    /\ config this' = Some c
    /\ trace (generateToken httpClient lib this' None)
       = [ConsoleLog body;
          HttpPost (token_endpoint c) (FormData body) token_request_config].
Proof.
  intros Hnew Hload body.
  destruct (constructor_inv _ _ Hnew)
    as (r & u & ui & ai & _ & _ & _ & Hai & _ & ->).
  cbn [server_uri realm] in Hload.
  unfold discovery_settled. cbn [server_uri realm]. rewrite Hload. exec.
  eexists. split; [reflexivity|]. split; [reflexivity|].
  erewrite generateToken_config by reflexivity.
  unfold body, client_credentials_grant.
  cbn [clientAdmin client_id client_secret trace fst]. by rewrite Hai.
Qed.

End Startup.

(** ** The further behaviour in the concrete environments *)

Lemma verifyToken_missing_jwks_uri_run :
  getJWKs Doubles.httpClient Doubles.lib Scenarios.ready_issuer_only
  = ([], Throw missing_jwks_uri)
  /\ verifyToken Doubles.httpClient Doubles.lib Scenarios.ready_issuer_only
       "rs256.good" "kid1"
     = ([], Throw missing_jwks_uri).
Proof.
  apply (verifyToken_missing_jwks_uri Doubles.httpClient Doubles.lib
           Scenarios.ready_issuer_only Scenarios.oidc_issuer_only
           "rs256.good" "kid1"); reflexivity.
Defined.

Lemma verifyToken_jwks_request_rejected_run :
  getJWKs Scenarios.httpClient_jwks_rejected Doubles.lib Doubles.ready
  = ([HttpLoadJSON "http://kc/certs"], Throw Scenarios.unreachable)
  /\ verifyToken Scenarios.httpClient_jwks_rejected Doubles.lib Doubles.ready
       "rs256.good" "kid1"
     = ([HttpLoadJSON "http://kc/certs"], Throw Scenarios.unreachable).
Proof.
  apply (verifyToken_jwks_request_rejected Scenarios.httpClient_jwks_rejected
           Doubles.lib Doubles.ready Doubles.oidc "http://kc/certs"
           Scenarios.unreachable "rs256.good" "kid1"); reflexivity.
Defined.

Lemma verifyToken_jwks_without_keys_run :
  getJWKs Scenarios.httpClient_no_keys Doubles.lib Doubles.ready
  = ([HttpLoadJSON "http://kc/certs"], Throw jwks_download_failed)
  /\ verifyToken Scenarios.httpClient_no_keys Doubles.lib Doubles.ready
       "rs256.good" "kid1"
     = ([HttpLoadJSON "http://kc/certs"], Throw jwks_download_failed).
Proof.
  apply (verifyToken_jwks_without_keys Scenarios.httpClient_no_keys
           Doubles.lib Doubles.ready Doubles.oidc "http://kc/certs"
           "rs256.good" "kid1"); reflexivity.
Defined.

Lemma verifyToken_empty_key_set_run :
  getJWKs Scenarios.httpClient_empty_keys Doubles.lib Doubles.ready
  = ([HttpLoadJSON "http://kc/certs"], Return ∅)
  /\ verifyToken Scenarios.httpClient_empty_keys Doubles.lib Doubles.ready
       "rs256.good" "kid1"
     = ([HttpLoadJSON "http://kc/certs"], Throw unauthorized_invalid_jwt).
Proof.
  apply (verifyToken_empty_key_set Scenarios.httpClient_empty_keys
           Doubles.lib Doubles.ready Doubles.oidc "http://kc/certs"
           "rs256.good" "kid1"); reflexivity.
Defined.

Lemma verifyToken_refused_key_run :
  getJWKs Scenarios.httpClient_bad_curve Doubles.lib Doubles.ready
  = ([HttpLoadJSON "http://kc/certs"],
     Throw (Error "Error" "Unsupported curve P-521"))
  /\ verifyToken Scenarios.httpClient_bad_curve Doubles.lib Doubles.ready
       "rs256.good" "kid1"
     = ([HttpLoadJSON "http://kc/certs"],
        Throw (Error "Error" "Unsupported curve P-521")).
Proof.
  apply (verifyToken_refused_key Scenarios.httpClient_bad_curve
           Doubles.lib Doubles.ready Doubles.oidc "http://kc/certs"
           [ {| kid := "kid1"; jwk := RSAKey "n-new" "AQAB" |} ]
           {| kid := "kid9"; jwk := ECKey "P-521" "x9" "y9" |}
           [ {| kid := "kid3"; jwk := ECKey "P-256" "x3" "y3" |} ]
           (Error "Error" "Unsupported curve P-521") "rs256.good" "kid1");
    try reflexivity.
  constructor; [by eexists|constructor].
Defined.

Lemma getJWKs_key_ids_run :
  exists pems,
    getJWKs Doubles.httpClient Doubles.lib Doubles.ready
    = ([HttpLoadJSON "http://kc/certs"], Return pems)
    /\ dom pems = list_to_set (kid <$> Doubles.jwks).
Proof.
  apply (getJWKs_key_ids Doubles.httpClient Doubles.lib Doubles.ready
           Doubles.oidc "http://kc/certs" Doubles.jwks Doubles.pem_text);
    try reflexivity.
  repeat constructor.
Defined.

Lemma verifyToken_verify_iff_listed_run :
  existsb is_JwtVerify
    (trace (verifyToken Doubles.httpClient Doubles.lib Doubles.ready
              "rs256.good" "kid2"))
  = bool_decide ("kid2" ∈ kid <$> Doubles.jwks)
  /\ ("kid2" ∉ kid <$> Doubles.jwks ->
      verifyToken Doubles.httpClient Doubles.lib Doubles.ready
        "rs256.good" "kid2"
      = ([HttpLoadJSON "http://kc/certs"], Throw unauthorized_invalid_jwt)).
Proof.
  apply (verifyToken_verify_iff_listed Doubles.httpClient Doubles.lib
           Doubles.ready Doubles.oidc "http://kc/certs" Doubles.jwks
           Doubles.pem_text "rs256.good" "kid2");
    try reflexivity.
  repeat constructor.
Defined.

Lemma verifyToken_one_network_call_run :
  List.filter is_network
    (trace (verifyToken Doubles.httpClient Doubles.lib Doubles.ready
              "rs256.good" "kid1"))
  = [HttpLoadJSON "http://kc/certs"].
Proof.
  apply (verifyToken_one_network_call Doubles.httpClient Doubles.lib
           Doubles.ready Doubles.oidc "http://kc/certs" "rs256.good" "kid1");
    reflexivity.
Defined.

Lemma generateToken_before_discovery_run :
  generateToken Doubles.httpClient Doubles.lib Doubles.fresh None
  = ([ConsoleLog
        "grant_type=client_credentials&client_id=admin-cli&client_secret=admin-secret";
      LogError (TypeError
        "Cannot read properties of undefined (reading 'token_endpoint')")],
     Throw (TypeError
        "Cannot read properties of undefined (reading 'token_endpoint')"))
  /\ generateToken Doubles.httpClient Doubles.lib Doubles.fresh
       (Some {| gt_username := "u"; gt_password := "pw" |})
     = ([ConsoleLog
           "username=u&password=pw&grant_type=password&client_id=web&client_secret=web-secret";
         LogError (TypeError
           "Cannot read properties of undefined (reading 'token_endpoint')")],
        Throw (TypeError
           "Cannot read properties of undefined (reading 'token_endpoint')")).
Proof.
  apply (generateToken_before_discovery Doubles.httpClient Doubles.lib
           Doubles.fresh "u" "pw").
  reflexivity.
Defined.

Lemma generateToken_outcome_run :
  exists data,
    completion (generateToken Doubles.httpClient_token_refused Doubles.lib
                  Doubles.ready None)
    = match post Doubles.httpClient_token_refused TToken
              (token_endpoint Doubles.oidc) (FormData data)
              token_request_config with
      | Resolved t => Return t
      | Rejected e => Throw e
      end
    /\ List.filter is_network
         (trace (generateToken Doubles.httpClient_token_refused Doubles.lib
                   Doubles.ready None))
       = [HttpPost (token_endpoint Doubles.oidc) (FormData data)
            token_request_config]
    /\ existsb is_LogError
         (trace (generateToken Doubles.httpClient_token_refused Doubles.lib
                   Doubles.ready None)) = false.
Proof.
  apply (generateToken_outcome Doubles.httpClient_token_refused Doubles.lib
           Doubles.ready Doubles.oidc None).
  reflexivity.
Defined.

Lemma introspectToken_endpoint_not_cached_run :
  introspectToken Doubles.httpClient Doubles.lib Scenarios.ready_issuer_only
    "abc"
  = ([], Throw missing_introspection_endpoint)
  /\ existsb is_network
       (trace (introspectToken Doubles.httpClient Doubles.lib
                 Scenarios.ready_issuer_only "abc")) = false.
Proof.
  apply (introspectToken_endpoint_not_cached Doubles.httpClient Doubles.lib
           Scenarios.ready_issuer_only Scenarios.oidc_issuer_only "abc");
    reflexivity.
Defined.

Lemma introspectToken_request_run :
  introspectToken Scenarios.httpClient_introspection_refused Doubles.lib
    Doubles.ready "abc"
  = ([ConsoleLog
        "grant_type=client_credentials&client_id=admin-cli&client_secret=admin-secret";
      HttpPost (Some "http://kc/token")
        (FormData
           "grant_type=client_credentials&client_id=admin-cli&client_secret=admin-secret")
        token_request_config;
      HttpPost (Some "http://kc/introspect") (FormData "token=abc")
        (introspection_request_config Doubles.admin_token)],
     Throw Doubles.refused).
Proof.
  apply (introspectToken_request Scenarios.httpClient_introspection_refused
           Doubles.lib Doubles.ready Doubles.oidc "abc" Doubles.admin_token);
    reflexivity.
Defined.

Lemma introspectToken_token_rejected_run :
  introspectToken Doubles.httpClient_token_refused Doubles.lib Doubles.ready
    "abc"
  = ([ConsoleLog
        "grant_type=client_credentials&client_id=admin-cli&client_secret=admin-secret";
      HttpPost (Some "http://kc/token")
        (FormData
           "grant_type=client_credentials&client_id=admin-cli&client_secret=admin-secret")
        token_request_config],
     Throw Doubles.refused).
Proof.
  apply (introspectToken_token_rejected Doubles.httpClient_token_refused
           Doubles.lib Doubles.ready Doubles.oidc "abc" Doubles.refused);
    reflexivity.
Defined.

Lemma registerUser_created_run :
  registerUser Doubles.httpClient Doubles.lib Doubles.ready Doubles.alice
  = ([LogDebug "Called registerUser";
      ConsoleLog
        "grant_type=client_credentials&client_id=admin-cli&client_secret=admin-secret";
      HttpPost (Some "http://kc/token")
        (FormData
           "grant_type=client_credentials&client_id=admin-cli&client_secret=admin-secret")
        token_request_config;
      ConsoleLog "Bearer adm";
      HttpPost (Some "http://kc/admin/realms/bc/users")
        (JsonData (user_representation Doubles.alice))
        (users_request_config Doubles.admin_token)],
     Return tt).
Proof.
  apply (registerUser_created Doubles.httpClient Doubles.lib Doubles.ready
           Doubles.oidc Doubles.alice Doubles.admin_token);
    reflexivity.
Defined.

Lemma registerUser_creation_rejected_run :
  completion (registerUser Doubles.httpClient_conflict Doubles.lib
                Doubles.ready Doubles.alice)
  = Throw Doubles.conflict
  /\ List.filter is_LogError
       (trace (registerUser Doubles.httpClient_conflict Doubles.lib
                 Doubles.ready Doubles.alice))
     = [LogError Doubles.conflict]
  /\ List.filter is_network
       (trace (registerUser Doubles.httpClient_conflict Doubles.lib
                 Doubles.ready Doubles.alice))
     = [HttpPost (Some "http://kc/token")
          (FormData
             "grant_type=client_credentials&client_id=admin-cli&client_secret=admin-secret")
          token_request_config;
        HttpPost (Some "http://kc/admin/realms/bc/users")
          (JsonData (user_representation Doubles.alice))
          (users_request_config Doubles.admin_token)].
Proof.
  apply (registerUser_creation_rejected Doubles.httpClient_conflict
           Doubles.lib Doubles.ready Doubles.oidc Doubles.alice
           Doubles.admin_token Doubles.conflict);
    reflexivity.
Defined.

Lemma registerUser_before_discovery_run :
  registerUser Doubles.httpClient Doubles.lib Doubles.fresh Doubles.alice
  = ([LogDebug "Called registerUser";
      ConsoleLog
        "grant_type=client_credentials&client_id=admin-cli&client_secret=admin-secret";
      LogError (TypeError
        "Cannot read properties of undefined (reading 'token_endpoint')")],
     Throw (TypeError
        "Cannot read properties of undefined (reading 'token_endpoint')")).
Proof.
  apply (registerUser_before_discovery Doubles.httpClient Doubles.lib
           Doubles.fresh Doubles.alice).
  reflexivity.
Defined.

Lemma constructor_Return_fields_run :
  get Doubles.configService ENV_KEYCLOAK_REALM = Some (realm Doubles.fresh)
  /\ get Doubles.configService ENV_KEYCLOAK_SERVER_URI
     = Some (server_uri Doubles.fresh)
  /\ get Doubles.configService ENV_KEYCLOAK_USER_CLIENT_ID
     = Some (client_id (clientUser Doubles.fresh))
  /\ get Doubles.configService ENV_KEYCLOAK_USER_CLIENT_SECRET
     = client_secret (clientUser Doubles.fresh)
  /\ get Doubles.configService ENV_KEYCLOAK_ADMIN_CLIENT_ID
     = Some (client_id (clientAdmin Doubles.fresh))
  /\ get Doubles.configService ENV_KEYCLOAK_ADMIN_CLIENT_SECRET
     = client_secret (clientAdmin Doubles.fresh)
  /\ config Doubles.fresh = None
  /\ [HttpLoadJSON "http://kc/realms/bc/.well-known/openid-configuration"]
     = [HttpLoadJSON
          (server_uri Doubles.fresh +:+ "/realms/" +:+ realm Doubles.fresh
           +:+ "/.well-known/openid-configuration")].
Proof.
  apply (constructor_Return_fields Doubles.configService Doubles.httpClient
           [HttpLoadJSON "http://kc/realms/bc/.well-known/openid-configuration"]
           Doubles.fresh).
  reflexivity.
Defined.

Lemma constructor_first_failed_assertion_run :
  constructor Scenarios.configService_empty_uri Doubles.httpClient
  = ([], Throw (AssertionError
                  (dq +:+ "metadata_uri" +:+ dq +:+ " is not defined."))).
Proof.
  apply (constructor_first_failed_assertion Scenarios.configService_empty_uri
           Doubles.httpClient 1 (Some "")
           (dq +:+ "metadata_uri" +:+ dq +:+ " is not defined."));
    try reflexivity.
  intros [|j] v' message' Hj; [|lia]. by intros [= <- <-].
Defined.

Lemma startup_discovery_rejected_run :
  discovery_settled Scenarios.httpClient_discovery_rejected Doubles.fresh
  = ([ConsoleError Scenarios.unreachable], Return Doubles.fresh)
  /\ verifyToken Scenarios.httpClient_discovery_rejected Doubles.lib
       Doubles.fresh "rs256.good" "kid1"
     = ([], Throw (TypeError
                     "Cannot read properties of undefined (reading 'jwks_uri')"))
  /\ introspectToken Scenarios.httpClient_discovery_rejected Doubles.lib
       Doubles.fresh "rs256.good"
     = ([], Throw (TypeError
          "Cannot read properties of undefined (reading 'introspection_endpoint')")).
Proof.
  apply (startup_discovery_rejected Doubles.configService
           Scenarios.httpClient_discovery_rejected Doubles.lib
           [HttpLoadJSON "http://kc/realms/bc/.well-known/openid-configuration"]
           Doubles.fresh Scenarios.unreachable "rs256.good" "kid1");
    reflexivity.
Defined.

Lemma startup_then_generateToken_run :
  exists this',
    discovery_settled Doubles.httpClient Doubles.fresh = ([], Return this')
    /\ config this' = Some Doubles.oidc
    /\ trace (generateToken Doubles.httpClient Doubles.lib this' None)
       = [ConsoleLog
            "grant_type=client_credentials&client_id=admin-cli&client_secret=admin-secret";
          HttpPost (Some "http://kc/token")
            (FormData
               "grant_type=client_credentials&client_id=admin-cli&client_secret=admin-secret")
            token_request_config].
Proof.
  apply (startup_then_generateToken Doubles.configService Doubles.httpClient
           Doubles.lib
           [HttpLoadJSON "http://kc/realms/bc/.well-known/openid-configuration"]
           Doubles.fresh Doubles.oidc);
    reflexivity.
Defined.

(** * The signature algorithm *)

Section Algorithm.

Context (httpClient : HttpClientService) (lib : Libraries).

Implicit Types (this : KeyCloakService) (cfg : OIDCIdentityConfig).






End Algorithm.




(** The token that declares HS256 and is signed with the public key as
    secret ends at the algorithm check of the library. *)
Example verifyToken_hs256_refused :
  verifyToken Doubles.httpClient Doubles.lib Doubles.ready
    "hs256.forged" "kid1"
  = ([HttpLoadJSON "http://kc/certs";
      JwtVerify "hs256.forged" (Some Doubles.pem_new)
        {| vo_issuer := Some "http://kc/realms/bc"; vo_algorithms := None |}],
     Throw (Error "JsonWebTokenError" "invalid algorithm")).
Proof. reflexivity. Qed.
